(** * TaskFlow backend: the task service of [backend/src/app.py]

    A shallow embedding of the FastAPI handlers of [app.py] and of the parts
    of Python, pydantic and the SQLAlchemy session they rely on, followed by
    the properties of the task service.

    Conventions.
    - A Python [str] is a [string]; each character stands for one code point
      (the code points below 256).
    - A [datetime] is a number of microseconds on the UTC time line.
    - A handler is a computation over the request's database session that
      either returns a value or raises an exception; the session keeps its
      state when an exception is raised, so that [try]/[except] resumes from
      the state at the point of the [raise]. *)

From Stdlib Require Import ZArith NArith List String Ascii Bool Lia DecimalString.
Import ListNotations.

Local Open Scope string_scope.
Local Open Scope list_scope.

(* ------------------------------------------------------------------------- *)
(** ** Python strings *)

Module Str.

(** [str.isspace] on one character: the code points below 256 that Python
    counts as whitespace. *)
Definition isspace (c : ascii) : bool :=
  let n := N_of_ascii c in
  (((9 <=? n) && (n <=? 13)) || ((28 <=? n) && (n <=? 32))
   || (n =? 133) || (n =? 160))%N.

Fixpoint lstrip (s : string) : string :=
  match s with
  | EmptyString => EmptyString
  | String c s' => if isspace c then lstrip s' else s
  end.

Fixpoint rstrip (s : string) : string :=
  match s with
  | EmptyString => EmptyString
  | String c s' =>
      match rstrip s' with
      | EmptyString => if isspace c then EmptyString else String c EmptyString
      | r => String c r
      end
  end.

(** [s.strip()] *)
Definition strip (s : string) : string := rstrip (lstrip s).

(** [len(s)] *)
Definition len (s : string) : Z := Z.of_nat (String.length s).

(** [bool(s)]: a string is falsy exactly when it is empty. *)
Definition truthy (s : string) : bool :=
  match s with EmptyString => false | String _ _ => true end.

(** Every character is whitespace (the empty string included). *)
Fixpoint blank (s : string) : bool :=
  match s with
  | EmptyString => true
  | String c s' => isspace c && blank s'
  end.

(** [c in s] for a character [c]. *)
Fixpoint contains (c : ascii) (s : string) : bool :=
  match s with
  | EmptyString => false
  | String d s' => Ascii.eqb c d || contains c s'
  end.

(** [str(n)] for an [int]. *)
Definition of_int (n : Z) : string := NilZero.string_of_int (Z.to_int n).

End Str.

(* ------------------------------------------------------------------------- *)
(** ** [uuid.uuid4] and [str(UUID)] *)

Module uuid.

Definition hexdigits : list ascii :=
  ["0"; "1"; "2"; "3"; "4"; "5"; "6"; "7";
   "8"; "9"; "a"; "b"; "c"; "d"; "e"; "f"]%char.

Definition hexdigit (d : N) : ascii := nth (N.to_nat d) hexdigits "0"%char.

(** ['%0{width}x' % n] for [n < 16 ^ width]: [width] hexadecimal digits,
    the most significant first. *)
Fixpoint format_x (width : nat) (n : N) : string :=
  match width with
  | O => EmptyString
  | S k => String (hexdigit ((n / 16 ^ N.of_nat k) mod 16)) (format_x k n)
  end.

(** [UUID(int=..., version=4)]: the variant and version bits are forced. *)
Definition UUID (int : N) : N :=
  let int := N.ldiff int (N.shiftl 0xc000 48) in
  let int := N.lor int (N.shiftl 0x8000 48) in
  let int := N.ldiff int (N.shiftl 0xf000 64) in
  N.lor int (N.shiftl 4 76).

(** [uuid4()] on the sixteen bytes [os.urandom(16)] returned, read as a
    big-endian integer. *)
Definition uuid4 (urandom : N) : N := UUID (urandom mod 2 ^ 128).

(** [str(u)]: the 32 digits in groups of 8, 4, 4, 4 and 12. *)
Definition str (u : N) : string :=
  let hex := format_x 32 u in
  (substring 0 8 hex ++ "-" ++ substring 8 4 hex ++ "-" ++
   substring 12 4 hex ++ "-" ++ substring 16 4 hex ++ "-" ++
   substring 20 12 hex)%string.

End uuid.

(* ------------------------------------------------------------------------- *)
(** ** Exceptions and responses *)

Inductive Exception : Type :=
| HTTPException (status_code : Z) (detail : string)
    (* raised by a handler *)
| RequestValidationError (loc : string)
    (* FastAPI: a path parameter or the body failed validation *)
| ResponseValidationError
    (* FastAPI: the returned object does not fit [response_model] *)
| ValidationError (loc : string)
    (* pydantic: a model built inside a handler failed validation *)
| SQLAlchemyError (description : string)
    (* the session or the database failed *)
| TypeError (description : string)
| UnboundLocalError (name : string)
| OverflowError (description : string).
    (* the database driver: an integer too large to bind *)

(** The status code the client sees: FastAPI answers an [HTTPException] with
    its own code, a request validation error with 422, and anything a handler
    lets escape with 500. *)
Definition status_code (e : Exception) : Z :=
  match e with
  | HTTPException c _ => c
  | RequestValidationError _ => 422
  | _ => 500
  end.

(** [str(e)] *)
Definition Exception_str (e : Exception) : string :=
  match e with
  | HTTPException _ d => d
  | RequestValidationError l => l
  | ResponseValidationError => "response validation"
  | ValidationError l => l
  | SQLAlchemyError d => d
  | TypeError d => d
  | UnboundLocalError n => n
  | OverflowError d => d
  end.

(* ------------------------------------------------------------------------- *)
(** ** The models of [models.py] *)

Definition datetime := Z.

(** Modelled from the spec: the enumeration [TaskStatus] of [models.py],
    which is not among the sources; the spec gives its members as
    TODO, IN_PROGRESS and DONE. *)
Inductive TaskStatus : Type := TODO | IN_PROGRESS | DONE.

(** Modelled from the spec: the enumeration [TaskPriority] of [models.py],
    which is not among the sources; the spec gives its members as
    LOW, MEDIUM and HIGH. *)
Inductive TaskPriority : Type := LOW | MEDIUM | HIGH.

Definition TaskStatus_value (s : TaskStatus) : string :=
  match s with TODO => "TODO" | IN_PROGRESS => "IN_PROGRESS" | DONE => "DONE" end.

Definition TaskPriority_value (p : TaskPriority) : string :=
  match p with LOW => "LOW" | MEDIUM => "MEDIUM" | HIGH => "HIGH" end.

(** [bool(member)]: a member of a string-valued enumeration is truthy when its
    value is (a member of a plain [Enum] always is). *)
Definition TaskStatus_truthy (s : TaskStatus) : bool := Str.truthy (TaskStatus_value s).
Definition TaskPriority_truthy (p : TaskPriority) : bool := Str.truthy (TaskPriority_value p).

Definition TaskStatus_eqb (a b : TaskStatus) : bool :=
  match a, b with
  | TODO, TODO | IN_PROGRESS, IN_PROGRESS | DONE, DONE => true
  | _, _ => false
  end.

Definition TaskPriority_eqb (a b : TaskPriority) : bool :=
  match a, b with
  | LOW, LOW | MEDIUM, MEDIUM | HIGH, HIGH => true
  | _, _ => false
  end.

(** Modelled from the spec: the mapped class [TaskModel] of [models.py], which
    is not among the sources. Its columns are the nine fields of a task; [id]
    is the primary key. The two timestamps are [None] on an object that was
    built without them and has not been written yet. *)
Module TaskModel.
Record t : Type := mk {
  id : string;
  title : string;
  description : option string;
  status : TaskStatus;
  priority : TaskPriority;
  assignee : option string;
  due_date : option datetime;
  created_at : option datetime;
  updated_at : option datetime
}.

(** Modelled from the spec: the column defaults of [created_at] and
    [updated_at], applied when a row is inserted: both are set to the
    current time, equal on creation. A value given by the caller is kept. *)
Definition defaults (now : datetime) (r : t) : t :=
  mk (id r) (title r) (description r) (status r) (priority r) (assignee r)
     (due_date r)
     (match created_at r with Some c => Some c | None => Some now end)
     (match updated_at r with Some u => Some u | None => Some now end).
End TaskModel.

(* ------------------------------------------------------------------------- *)
(** ** The world outside the handlers *)

(** What a request finds when it arrives: the [tasks] table, whether the
    database answers ([outage] carries the error description when it does
    not), how the engine compares the text key with an integer parameter
    ([None] when it rejects the statement), the wall clock, and the bytes
    [os.urandom] will return at each of its calls. *)
Record World : Type := mkWorld {
  tasks : list TaskModel.t;
  outage : option string;
  text_eq_int : option (string -> Z -> bool);
  clock : datetime;
  entropy : nat -> N;
  drawn : nat
}.

(** A session of [get_db]: the world it is bound to and the unit of work that
    [commit] has not written yet. *)
Record Session : Type := mkSession {
  bound : World;
  new : list TaskModel.t;
  deleted : list TaskModel.t
}.

Definition with_tasks (rows : list TaskModel.t) (w : World) : World :=
  mkWorld rows (outage w) (text_eq_int w) (clock w) (entropy w) (drawn w).

Definition with_drawn (n : nat) (w : World) : World :=
  mkWorld (tasks w) (outage w) (text_eq_int w) (clock w) (entropy w) n.

(** Modelled from the spec: [get_db] of [database.py], which is not among the
    sources: it yields a session scoped to the request and closes it
    afterwards; the connection is made at the first statement. *)
Definition get_db (w : World) : Session := mkSession w [] [].

(** Closing the session drops what was not committed. *)
Definition close (s : Session) : World := bound s.

(* ------------------------------------------------------------------------- *)
(** ** Handlers as computations *)

Definition M (A : Type) : Type := Session -> (Exception + A) * Session.

Definition ret {A} (a : A) : M A := fun s => (inr a, s).

Definition raise {A} (e : Exception) : M A := fun s => (inl e, s).

Definition bind {A B} (m : M A) (k : A -> M B) : M B :=
  fun s =>
    match m s with
    | (inr a, s') => k a s'
    | (inl e, s') => (inl e, s')
    end.

(** [try: body  except Exception as e: handler(e)] *)
Definition try_except {A} (body : M A) (handler : Exception -> M A) : M A :=
  fun s =>
    match body s with
    | (inr a, s') => (inr a, s')
    | (inl e, s') => handler e s'
    end.

Declare Scope py_scope.
Delimit Scope py_scope with py.
Notation "x <- m ;; k" := (bind m (fun x => k))
  (at level 61, m at next level, right associativity) : py_scope.
Notation "m ;;; k" := (bind m (fun _ => k))
  (at level 61, right associativity) : py_scope.
Local Open Scope py_scope.

(** [datetime.now(timezone.utc)] and [datetime.utcnow()] *)
Definition datetime_now : M datetime := fun s => (inr (clock (bound s)), s).

(** [uuid.uuid4()]: consumes the next sixteen random bytes. *)
Definition uuid4 : M N :=
  fun s =>
    let w := bound s in
    (inr (uuid.uuid4 (entropy w (drawn w))),
     mkSession (with_drawn (S (drawn w)) w) (new s) (deleted s)).

(* ------------------------------------------------------------------------- *)
(** ** The session and its queries *)

Module Query.

Inductive Criterion : Type :=
| id_eq (v : string)              (* TaskModel.id == v, v a str *)
| id_eq_int (v : Z)               (* TaskModel.id == v, v an int *)
| status_eq (v : TaskStatus)
| priority_eq (v : TaskPriority)
| assignee_eq (v : string).

(** [db.query(TaskModel)] followed by any number of [.filter(...)]. *)
Definition t : Type := list Criterion.

Definition filter (q : t) (c : Criterion) : t := q ++ [c].

(** The integers the driver binds as a parameter: those of 64 bits,
    signed. *)
Definition int64 (v : Z) : bool := ((- 2 ^ 63 <=? v) && (v <? 2 ^ 63))%Z.

(** The row test of one criterion, or the exception the statement raises. A
    comparison with a NULL column is not true. An engine that does not
    compare a text column with an integer rejects the statement; one that
    does receives the integer through the driver, which raises
    [OverflowError] on an integer it cannot bind. *)
Definition holds (w : World) (c : Criterion) : Exception + (TaskModel.t -> bool) :=
  match c with
  | id_eq v => inr (fun r => String.eqb (TaskModel.id r) v)
  | id_eq_int v =>
      match text_eq_int w with
      | Some cmp =>
          if int64 v then inr (fun r => cmp (TaskModel.id r) v)
          else inl (OverflowError "Python int too large to convert to SQLite INTEGER")
      | None => inl (SQLAlchemyError "operator does not exist")
      end
  | status_eq v => inr (fun r => TaskStatus_eqb (TaskModel.status r) v)
  | priority_eq v => inr (fun r => TaskPriority_eqb (TaskModel.priority r) v)
  | assignee_eq v =>
      inr (fun r => match TaskModel.assignee r with
                    | Some a => String.eqb a v
                    | None => false
                    end)
  end.

(** The WHERE clause: the conjunction of the criteria. *)
Fixpoint where_ (w : World) (q : t) : Exception + (TaskModel.t -> bool) :=
  match q with
  | [] => inr (fun _ => true)
  | c :: q' =>
      match holds w c, where_ w q' with
      | inr p, inr p' => inr (fun r => p r && p' r)
      | inl e, _ => inl e
      | inr _, inl e => inl e
      end
  end.

(** [q.all()] *)
Definition all (q : t) : M (list TaskModel.t) :=
  fun s =>
    let w := bound s in
    match outage w with
    | Some e => (inl (SQLAlchemyError e), s)
    | None =>
        match where_ w q with
        | inr p => (inr (List.filter p (tasks w)), s)
        | inl e => (inl e, s)
        end
    end.

(** [q.first()] *)
Definition first (q : t) : M (option TaskModel.t) :=
  rows <- all q ;; ret (List.hd_error rows).

(** [q.count()] *)
Definition count (q : t) : M nat :=
  rows <- all q ;; ret (List.length rows).

End Query.

Module db.

(** [db.query(TaskModel)] *)
Definition query : Query.t := [].

(** [db.execute(text("SELECT 1"))] *)
Definition execute_select_1 : M unit :=
  fun s =>
    match outage (bound s) with
    | Some e => (inl (SQLAlchemyError e), s)
    | None => (inr tt, s)
    end.

(** [db.add(obj)] *)
Definition add (obj : TaskModel.t) : M unit :=
  fun s => (inr tt, mkSession (bound s) (new s ++ [obj]) (deleted s)).

(** [db.delete(obj)] *)
Definition delete (obj : TaskModel.t) : M unit :=
  fun s => (inr tt, mkSession (bound s) (new s) (deleted s ++ [obj])).

Definition has_key (k : string) (rows : list TaskModel.t) : bool :=
  existsb (fun r => String.eqb (TaskModel.id r) k) rows.

(** INSERT of the pending objects, in order; the primary key refuses a row
    whose [id] is already there. *)
Fixpoint insert (now : datetime) (objs rows : list TaskModel.t)
  : option (list TaskModel.t) :=
  match objs with
  | [] => Some rows
  | o :: objs' =>
      if has_key (TaskModel.id o) rows then None
      else insert now objs' (rows ++ [TaskModel.defaults now o])
  end.

(** DELETE of the objects marked for deletion, by primary key. *)
Definition remove (objs rows : list TaskModel.t) : list TaskModel.t :=
  List.filter (fun r => negb (has_key (TaskModel.id r) objs)) rows.

(** [db.commit()]: writes the unit of work in one transaction. When it
    raises nothing has been written and the unit of work is still pending. *)
Definition commit : M unit :=
  fun s =>
    let w := bound s in
    match outage w with
    | Some e => (inl (SQLAlchemyError e), s)
    | None =>
        match insert (clock w) (new s) (tasks w) with
        | None => (inl (SQLAlchemyError "duplicate key"), s)
        | Some rows =>
            (inr tt, mkSession (with_tasks (remove (deleted s) rows) w) [] [])
        end
    end.

(** [db.rollback()] *)
Definition rollback : M unit :=
  fun s => (inr tt, mkSession (bound s) [] []).

(** [db.refresh(obj)]: reloads the attributes of [obj] from its row. The
    object is mutated in place in Python; here the refreshed object is the
    result. *)
Definition refresh (obj : TaskModel.t) : M TaskModel.t :=
  row <- Query.first (Query.filter query (Query.id_eq (TaskModel.id obj))) ;;
  match row with
  | Some r => ret r
  | None => raise (SQLAlchemyError "could not refresh instance")
  end.

End db.

(* ------------------------------------------------------------------------- *)
(** ** The pydantic models of [app.py] *)

(** One field of a JSON request body as it arrives: not there, [null], a
    value that does not decode to the field's type (a number for a string, a
    name that is no member of the enumeration), or a value of that type. *)
Inductive Field (A : Type) : Type :=
| Unset
| Null
| Wrong
| Value (a : A).
Arguments Unset {A}.
Arguments Null {A}.
Arguments Wrong {A}.
Arguments Value {A} a.

(** The body of a POST or PUT request. *)
Module Body.
Record t : Type := mk {
  title : Field string;
  description : Field string;
  status : Field TaskStatus;
  priority : Field TaskPriority;
  assignee : Field string;
  due_date : Field datetime
}.
End Body.

(** [Field(..., min_length=lo, max_length=hi)] on a [str]. *)
Definition length_within (lo hi : Z) (s : string) : bool :=
  ((lo <=? Str.len s) && (Str.len s <=? hi))%Z.

(** A required field of type [str]. *)
Definition required_str (loc : string) (lo hi : Z) (f : Field string)
  : Exception + string :=
  match f with
  | Value s => if length_within lo hi s then inr s
               else inl (RequestValidationError loc)
  | _ => inl (RequestValidationError loc)
  end.

(** A field of type [Optional[str]] with default [None]: the result tells
    whether the field was set, and to what. *)
Definition optional_str (loc : string) (lo hi : Z) (f : Field string)
  : Exception + option (option string) :=
  match f with
  | Unset => inr None
  | Null => inr (Some None)
  | Value s => if length_within lo hi s then inr (Some (Some s))
               else inl (RequestValidationError loc)
  | Wrong => inl (RequestValidationError loc)
  end.

(** A field of type [Optional[T]] with default [None] and no constraint. *)
Definition optional_field {A} (loc : string) (f : Field A)
  : Exception + option (option A) :=
  match f with
  | Unset => inr None
  | Null => inr (Some None)
  | Value a => inr (Some (Some a))
  | Wrong => inl (RequestValidationError loc)
  end.

(** A field of type [T] with a default. *)
Definition defaulted_field {A} (loc : string) (default : A) (f : Field A)
  : Exception + A :=
  match f with
  | Unset => inr default
  | Value a => inr a
  | _ => inl (RequestValidationError loc)
  end.

(** Validation goes on to the next field when this one is accepted. *)
Definition and_then {A B} (r : Exception + A) (k : A -> Exception + B)
  : Exception + B :=
  match r with
  | inl e => inl e
  | inr a => k a
  end.

(** What an [Optional] field holds: [None] when it was not set. *)
Definition held {A} (f : option (option A)) : option A :=
  match f with Some v => v | None => None end.

Module TaskCreate.
Record t : Type := mk {
  title : string;
  description : option string;
  status : TaskStatus;
  priority : TaskPriority;
  assignee : option string;
  due_date : option datetime
}.

(** Validation of the request body against the declared fields. *)
Definition validate (b : Body.t) : Exception + t :=
  and_then (required_str "title" 1 200 (Body.title b)) (fun ti =>
  and_then (optional_str "description" 0 1000 (Body.description b)) (fun de =>
  and_then (defaulted_field "status" TODO (Body.status b)) (fun st =>
  and_then (defaulted_field "priority" MEDIUM (Body.priority b)) (fun pr =>
  and_then (optional_str "assignee" 0 100 (Body.assignee b)) (fun asg =>
  and_then (optional_field "due_date" (Body.due_date b)) (fun du =>
  inr (mk ti (held de) st pr (held asg) (held du)))))))).
End TaskCreate.

Module TaskUpdate.
(** Every field records whether it was set ([Some]) and its value, [None]
    standing for Python's [None]. *)
Record t : Type := mk {
  title : option (option string);
  description : option (option string);
  status : option (option TaskStatus);
  priority : option (option TaskPriority);
  assignee : option (option string);
  due_date : option (option datetime)
}.

Definition validate (b : Body.t) : Exception + t :=
  and_then (optional_str "title" 1 200 (Body.title b)) (fun ti =>
  and_then (optional_str "description" 0 1000 (Body.description b)) (fun de =>
  and_then (optional_field "status" (Body.status b)) (fun st =>
  and_then (optional_field "priority" (Body.priority b)) (fun pr =>
  and_then (optional_str "assignee" 0 100 (Body.assignee b)) (fun asg =>
  and_then (optional_field "due_date" (Body.due_date b)) (fun du =>
  inr (mk ti de st pr asg du))))))).

(** [updates.model_dump(exclude_unset=True)]: the dictionary of the fields
    that were set. Its keys and the types of its values are those of the
    model, so the dictionary is the record itself. *)
Definition model_dump_exclude_unset (u : t) : t := u.

(** The dictionary has no item. *)
Definition no_items (d : t) : bool :=
  match title d, description d, status d, priority d, assignee d, due_date d with
  | None, None, None, None, None, None => true
  | _, _, _, _, _, _ => false
  end.

(** [d.get(key, default)] at one key. *)
Definition get {A} (item : option A) (default : A) : A :=
  match item with Some v => v | None => default end.
End TaskUpdate.

Module Task.
Record t : Type := mk {
  id : string;
  title : string;
  description : option string;
  status : TaskStatus;
  priority : TaskPriority;
  assignee : option string;
  due_date : option datetime;
  created_at : datetime;
  updated_at : datetime
}.

(** [Task(id=..., title=..., ...)]: [title], [status], [priority] and the
    timestamps do not accept [None]. *)
Definition init (id : string) (title : option string)
    (description : option string) (status : option TaskStatus)
    (priority : option TaskPriority) (assignee : option string)
    (due_date : option datetime) (created_at updated_at : option datetime)
  : Exception + t :=
  match title, status, priority, created_at, updated_at with
  | Some ti, Some st, Some pr, Some c, Some u =>
      inr (mk id ti description st pr assignee due_date c u)
  | _, _, _, _, _ => inl (ValidationError "Task")
  end.

(** [response_model=Task] with [from_attributes]: the response is read off
    the attributes of the returned object. *)
Definition from_attributes (r : TaskModel.t) : Exception + t :=
  match TaskModel.created_at r, TaskModel.updated_at r with
  | Some c, Some u =>
      inr (mk (TaskModel.id r) (TaskModel.title r) (TaskModel.description r)
              (TaskModel.status r) (TaskModel.priority r)
              (TaskModel.assignee r) (TaskModel.due_date r) c u)
  | _, _ => inl ResponseValidationError
  end.

(** [response_model=List[Task]] *)
Fixpoint list_from_attributes (rs : list TaskModel.t) : Exception + list t :=
  match rs with
  | [] => inr []
  | r :: rs' =>
      match from_attributes r, list_from_attributes rs' with
      | inr x, inr xs => inr (x :: xs)
      | inl e, _ => inl e
      | _, inl e => inl e
      end
  end.

(** The row a response was read from. *)
Definition row (x : t) : TaskModel.t :=
  TaskModel.mk (id x) (title x) (description x) (status x) (priority x)
               (assignee x) (due_date x) (Some (created_at x))
               (Some (updated_at x)).
End Task.

(** The body of the answer of [/health]. *)
Module Health.
Record t : Type := mk {
  status : string;
  database : string;
  tasks_count : option nat
}.
End Health.

(* ------------------------------------------------------------------------- *)
(** ** Operations Python refuses on a mapped object or on a pydantic model

    [TaskModel], a mapped class holding the columns of one row, defines
    neither [__contains__], [__iter__] nor [__getitem__]; a [Task] is a
    pydantic model and is not mapped. *)

(** [key not in obj] for a [TaskModel] instance [obj]. *)
Definition not_in_TaskModel (key : Z) (obj : TaskModel.t) : M bool :=
  raise (TypeError "argument of type 'TaskModel' is not iterable").

(** [obj[key]] for a [TaskModel] instance [obj]. *)
Definition getitem_TaskModel (obj : TaskModel.t) (key : Z) : M TaskModel.t :=
  raise (TypeError "'TaskModel' object is not subscriptable").

(** [obj[key] = value] for a [TaskModel] instance [obj]. *)
Definition setitem_TaskModel (obj : TaskModel.t) (key : Z) (value : Task.t) : M unit :=
  raise (TypeError "'TaskModel' object does not support item assignment").

(** [db.refresh(task)] for a [Task]. *)
Definition refresh_Task (task : Task.t) : M Task.t :=
  raise (SQLAlchemyError "Class 'Task' is not mapped").

(** Reading the local variable [task] of [update_task] before its
    assignment. *)
Definition unbound_task {A} : M A := raise (UnboundLocalError "task").

(** A result of validation inside a computation. *)
Definition lift {A} (r : Exception + A) : M A := fun s => (r, s).

(* ------------------------------------------------------------------------- *)
(** ** The handlers of [app.py] *)

(** The accented letters of the messages, by code point. *)
Definition a_circ : string := String (ascii_of_nat 226) EmptyString.
Definition e_acute : string := String (ascii_of_nat 233) EmptyString.
Definition e_circ : string := String (ascii_of_nat 234) EmptyString.

Definition detail_not_found (task_id : string) : string :=
  ("Task " ++ task_id ++ " not found")%string.

Definition detail_titre_vide : string :=
  ("Le titre ne peut pas " ++ e_circ ++ "tre vide.")%string.

Definition detail_sauvegarde : string :=
  ("Erreur lors de la sauvegarde de la t" ++ a_circ
     ++ "che dans la base de donn" ++ e_acute ++ "es.")%string.

(** [health_check] *)
Definition health_check : M Health.t :=
  try_except
    (db.execute_select_1 ;;;
     tasks_count <- Query.count db.query ;;
     ret (Health.mk "healthy" "connected" (Some tasks_count)))
    (fun e => ret (Health.mk "unhealthy" (Exception_str e) None)).

(** [get_tasks] *)
Definition get_tasks (status : option TaskStatus) (priority : option TaskPriority)
    (assignee : option string) : M (list TaskModel.t) :=
  let query := db.query in
  let query :=
    match status with
    | Some v => if TaskStatus_truthy v
                then Query.filter query (Query.status_eq v) else query
    | None => query
    end in
  let query :=
    match priority with
    | Some v => if TaskPriority_truthy v
                then Query.filter query (Query.priority_eq v) else query
    | None => query
    end in
  let query :=
    match assignee with
    | Some v => if Str.truthy v
                then Query.filter query (Query.assignee_eq v) else query
    | None => query
    end in
  Query.all query.

(** [get_task] *)
Definition get_task (task_id : string) : M TaskModel.t :=
  task <- Query.first (Query.filter db.query (Query.id_eq task_id)) ;;
  match task with
  | None => raise (HTTPException 404 (detail_not_found task_id))
  | Some task => ret task
  end.

(** [create_task] *)
Definition create_task (task_data : TaskCreate.t) : M TaskModel.t :=
  if negb (Str.truthy (TaskCreate.title task_data))
     || negb (Str.truthy (Str.strip (TaskCreate.title task_data)))
  then raise (HTTPException 422 detail_titre_vide)
  else
    u <- uuid4 ;;
    let task_id := uuid.str u in
    now <- datetime_now ;;
    let db_task :=
      TaskModel.mk task_id
                   (TaskCreate.title task_data)
                   (TaskCreate.description task_data)
                   (TaskCreate.status task_data)
                   (TaskCreate.priority task_data)
                   (TaskCreate.assignee task_data)
                   (TaskCreate.due_date task_data)
                   None None in
    db.add db_task ;;;
    try_except db.commit
      (fun e => db.rollback ;;; raise (HTTPException 500 detail_sauvegarde)) ;;;
    db_task <- db.refresh db_task ;;
    ret db_task.

(** [update_task] *)
Definition update_task (task_id : Z) (updates : TaskUpdate.t) : M Task.t :=
  tasks_db <- Query.first (Query.filter db.query (Query.id_eq_int task_id)) ;;
  match tasks_db with
  | None => raise (HTTPException 404 (detail_not_found (Str.of_int task_id)))
  | Some tasks_db =>
      absent <- not_in_TaskModel task_id tasks_db ;;
      if (absent : bool)
      then raise (HTTPException 404 (detail_not_found (Str.of_int task_id)))
      else
        existing_task <- getitem_TaskModel tasks_db task_id ;;
        let update_data := TaskUpdate.model_dump_exclude_unset updates in
        (if TaskUpdate.no_items update_data then ret tt else unbound_task) ;;;
        if negb (Str.truthy (TaskModel.title existing_task))
           || negb (Str.truthy (Str.strip (TaskModel.title existing_task)))
        then raise (HTTPException 422 "Title cannot be empty")
        else
          now <- datetime_now ;;
          task <- lift (Task.init
                    (TaskModel.id existing_task)
                    (TaskUpdate.get (TaskUpdate.title update_data)
                                    (Some (TaskModel.title existing_task)))
                    (TaskUpdate.get (TaskUpdate.description update_data)
                                    (TaskModel.description existing_task))
                    (TaskUpdate.get (TaskUpdate.status update_data)
                                    (Some (TaskModel.status existing_task)))
                    (TaskUpdate.get (TaskUpdate.priority update_data)
                                    (Some (TaskModel.priority existing_task)))
                    (TaskUpdate.get (TaskUpdate.assignee update_data)
                                    (TaskModel.assignee existing_task))
                    (TaskUpdate.get (TaskUpdate.due_date update_data)
                                    (TaskModel.due_date existing_task))
                    (TaskModel.created_at existing_task)
                    (Some now)) ;;
          db.commit ;;;
          task <- refresh_Task task ;;
          setitem_TaskModel tasks_db task_id task ;;;
          ret task
  end.

(** [delete_task] *)
Definition delete_task (task_id : string) : M unit :=
  task <- Query.first (Query.filter db.query (Query.id_eq task_id)) ;;
  match task with
  | None => raise (HTTPException 404 (detail_not_found task_id))
  | Some task =>
      db.delete task ;;;
      db.commit ;;;
      ret tt
  end.

(* ------------------------------------------------------------------------- *)
(** ** The routes *)

(** One request: the handler runs in a session of its own, which is closed
    when the handler returns or raises. *)
Definition respond {A} (handler : M A) (w : World) : (Exception + A) * World :=
  let (r, s) := handler (get_db w) in (r, close s).

(** [GET /health] *)
Definition GET_health (w : World) : (Exception + Health.t) * World :=
  respond health_check w.

(** [GET /tasks], [response_model=List[Task]] *)
Definition GET_tasks (status : option TaskStatus) (priority : option TaskPriority)
    (assignee : option string) (w : World) : (Exception + list Task.t) * World :=
  respond (rows <- get_tasks status priority assignee ;;
           lift (Task.list_from_attributes rows)) w.

(** [GET /tasks/{task_id}], [response_model=Task] *)
Definition GET_tasks_id (task_id : string) (w : World)
  : (Exception + Task.t) * World :=
  respond (row <- get_task task_id ;; lift (Task.from_attributes row)) w.

(** [POST /tasks], [response_model=Task, status_code=201]: the body is
    validated against [TaskCreate] before the handler is called. *)
Definition POST_tasks (body : Body.t) (w : World) : (Exception + Task.t) * World :=
  match TaskCreate.validate body with
  | inl e => (inl e, w)
  | inr task_data =>
      respond (row <- create_task task_data ;; lift (Task.from_attributes row)) w
  end.

(** [DELETE /tasks/{task_id}], [status_code=204] *)
Definition DELETE_tasks_id (task_id : string) (w : World)
  : (Exception + unit) * World :=
  respond (delete_task task_id) w.

(** In a string that reads as an integer a minus sign can only be the first
    character after the leading whitespace. *)
Definition sign_leading (s : string) : bool :=
  match Str.lstrip s with
  | EmptyString => true
  | String _ rest => negb (Str.contains "-"%char rest)
  end.

Section Routes.

(** The coercion FastAPI applies to a path parameter declared [int]:
    [None] when the segment does not read as an integer. *)
Variable int_of_path : string -> option Z.

(** [PUT /tasks/{task_id}], [response_model=Task]: the path parameter is
    declared [task_id: int]; it and the body are validated before the
    handler is called. *)
Definition PUT_tasks_id (task_id : string) (body : Body.t) (w : World)
  : (Exception + Task.t) * World :=
  match int_of_path task_id, TaskUpdate.validate body with
  | Some task_id, inr updates => respond (update_task task_id updates) w
  | None, _ => (inl (RequestValidationError "task_id"), w)
  | Some _, inl e => (inl e, w)
  end.

(** *** Runs of the service *)

Inductive Request : Type :=
| health
| list_tasks (status : option TaskStatus) (priority : option TaskPriority)
             (assignee : option string)
| get (task_id : string)
| create (body : Body.t)
| update (task_id : string) (body : Body.t)
| delete (task_id : string).

(** The world a request leaves behind. *)
Definition serve (req : Request) (w : World) : World :=
  match req with
  | health => snd (GET_health w)
  | list_tasks st pr asg => snd (GET_tasks st pr asg w)
  | get i => snd (GET_tasks_id i w)
  | create b => snd (POST_tasks b w)
  | update i b => snd (PUT_tasks_id i b w)
  | delete i => snd (DELETE_tasks_id i w)
  end.

(** The task a request hands out: the one a successful create returns. *)
Definition issues (req : Request) (w : World) : list Task.t :=
  match req with
  | create b => match fst (POST_tasks b w) with
                | inr t => [t]
                | inl _ => []
                end
  | _ => []
  end.

(** [Run w issued]: the service, started on an empty table, can be in the
    world [w] after handing out the tasks [issued] (the latest first).
    Between two requests the clock moves and the database may go away or
    come back. *)
Inductive Run : World -> list Task.t -> Prop :=
| Run_start : forall w, tasks w = [] -> Run w []
| Run_request : forall w issued req,
    Run w issued -> Run (serve req w) (issues req w ++ issued)
| Run_world : forall w issued o c,
    Run w issued ->
    Run (mkWorld (tasks w) o (text_eq_int w) c (entropy w) (drawn w)) issued.

End Routes.

(** The value of a string of decimal digits, [acc] being the value read so
    far. *)
Fixpoint digits_value (acc : Z) (s : string) : option Z :=
  match s with
  | EmptyString => Some acc
  | String c s' =>
      let n := N_of_ascii c in
      if ((48 <=? n) && (n <=? 57))%N
      then digits_value (10 * acc + Z.of_N (n - 48)) s'
      else None
  end.

(** The integers in decimal notation with an optional sign: a coercion of
    path parameters that accepts no more than Python's [int] does. *)
Definition decimal_int (s : string) : option Z :=
  match s with
  | EmptyString => None
  | String c s' =>
      if Ascii.eqb c "-" then
        match s' with
        | EmptyString => None
        | _ => option_map Z.opp (digits_value 0 s')
        end
      else if Ascii.eqb c "+" then
        match s' with
        | EmptyString => None
        | _ => digits_value 0 s'
        end
      else digits_value 0 s
  end.

(* ------------------------------------------------------------------------- *)
(** ** Vocabulary of the properties *)


(** A body the create operation accepts: a title of 1 to 200 characters that
    is not only whitespace, a description of at most 1000 characters, an
    assignee of at most 100, and no field of the wrong type. *)
Definition acceptable_length (hi : nat) (f : Field string) : bool :=
  match f with
  | Unset | Null => true
  | Value s => Nat.leb (String.length s) hi
  | Wrong => false
  end.

Definition acceptable_enum {A} (f : Field A) : bool :=
  match f with
  | Unset | Value _ => true
  | _ => false
  end.

Definition acceptable_optional {A} (f : Field A) : bool :=
  match f with
  | Wrong => false
  | _ => true
  end.

Definition valid_create (b : Body.t) : bool :=
  match Body.title b with
  | Value s => Nat.leb 1 (String.length s) && Nat.leb (String.length s) 200
               && negb (Str.blank s)
  | _ => false
  end
  && acceptable_length 1000 (Body.description b)
  && acceptable_enum (Body.status b)
  && acceptable_enum (Body.priority b)
  && acceptable_length 100 (Body.assignee b)
  && acceptable_optional (Body.due_date b).

(** The title of a create request is missing, empty or only whitespace. *)
Definition title_missing_or_blank (b : Body.t) : bool :=
  match Body.title b with
  | Unset => true
  | Value s => Str.blank s
  | _ => false
  end.

(** The fields a create request asks for, defaults included. *)
Definition requested (b : Body.t) (x : Task.t) : Prop :=
  Body.title b = Value (Task.title x) /\
  Task.description x = match Body.description b with Value s => Some s | _ => None end /\
  Task.status x = match Body.status b with Value v => v | _ => TODO end /\
  Task.priority x = match Body.priority b with Value v => v | _ => MEDIUM end /\
  Task.assignee x = match Body.assignee b with Value s => Some s | _ => None end /\
  Task.due_date x = match Body.due_date b with Value d => Some d | _ => None end.

(** The title of a stored task is neither empty nor only whitespace. *)
Definition title_ok (r : TaskModel.t) : Prop :=
  TaskModel.title r <> EmptyString /\ Str.blank (TaskModel.title r) = false.

(** The timestamps of a stored row are filled in. *)
Definition stamped (r : TaskModel.t) : bool :=
  match TaskModel.created_at r, TaskModel.updated_at r with
  | Some _, Some _ => true
  | _, _ => false
  end.

(** Following the spec's words for list: a task matches when it equals every
    filter that is supplied. *)
Definition matches_supplied (status : option TaskStatus)
    (priority : option TaskPriority) (assignee : option string)
    (r : TaskModel.t) : bool :=
  match status with Some v => TaskStatus_eqb (TaskModel.status r) v | None => true end
  && match priority with Some v => TaskPriority_eqb (TaskModel.priority r) v | None => true end
  && match assignee with
     | Some v => match TaskModel.assignee r with
                 | Some a => String.eqb a v
                 | None => false
                 end
     | None => true
     end.

(** An assignee filter that is the empty string counts as not supplied. *)
Definition effective (assignee : option string) : option string :=
  match assignee with
  | Some EmptyString => None
  | a => a
  end.

(** The identifier the next create hands out. *)
Definition next_id (w : World) : string :=
  uuid.str (uuid.uuid4 (entropy w (drawn w))).

(** The task a create request is answered with in the world [w]. *)
Definition created_task (d : TaskCreate.t) (w : World) : Task.t :=
  Task.mk (next_id w) (TaskCreate.title d) (TaskCreate.description d)
          (TaskCreate.status d) (TaskCreate.priority d) (TaskCreate.assignee d)
          (TaskCreate.due_date d) (clock w) (clock w).

(** The world after the task [x] was created in [w]. *)
Definition created_world (x : Task.t) (w : World) : World :=
  mkWorld (tasks w ++ [Task.row x]) (outage w) (text_eq_int w) (clock w)
          (entropy w) (S (drawn w)).

(** Following the spec's words for list: the answer is exactly the stored
    tasks that match every supplied filter. *)
Definition lists_exactly_supplied (status : option TaskStatus)
    (priority : option TaskPriority) (assignee : option string) (w : World)
  : Prop :=
  exists xs, GET_tasks status priority assignee w = (inr xs, w) /\
             map Task.row xs
             = List.filter (matches_supplied status priority assignee) (tasks w).

(** The partial input of an update that supplies nothing. *)
Definition empty_body : Body.t := Body.mk Unset Unset Unset Unset Unset Unset.

(** The partial input of an update that supplies only a title. *)
Definition title_body (s : string) : Body.t :=
  Body.mk (Value s) Unset Unset Unset Unset Unset.

(* ------------------------------------------------------------------------- *)
(** ** A sample run *)

(** An empty table on a database that answers and rejects the comparison of
    the key with an integer; [os.urandom] returns 0, 1, 2, ... *)
Definition w_start : World := mkWorld [] None None 1000%Z (fun i => N.of_nat i) 0.

Definition b_spec : Body.t := title_body "Write spec".

(** The task and the row the first create of the sample run makes. *)
Definition t_one : Task.t :=
  Task.mk "00000000-0000-4000-8000-000000000000" "Write spec" None TODO MEDIUM
          None None 1000%Z 1000%Z.

Definition w_one : World := created_world t_one w_start.

(** A table with one task assigned to bob and one to nobody. *)
Definition r_bob : TaskModel.t :=
  TaskModel.mk "00000000-0000-4000-8000-000000000000" "Write spec" None DONE
               MEDIUM (Some "bob") None (Some 1000%Z) (Some 1000%Z).

Definition r_free : TaskModel.t :=
  TaskModel.mk "00000000-0000-4000-8000-000000000001" "Review" None TODO
               HIGH None None (Some 1001%Z) (Some 1001%Z).

Definition w_bob : World :=
  mkWorld [r_bob; r_free] None None 2000%Z (fun i => N.of_nat i) 2.

(** A table whose one key reads as the integer 5, on an engine that compares
    the text key with an integer through its decimal notation. *)
Definition r_five : TaskModel.t :=
  TaskModel.mk "5" "Legacy" None TODO LOW None None (Some 1%Z) (Some 1%Z).

Definition w_five : World :=
  mkWorld [r_five] None (Some (fun k z => String.eqb k (Str.of_int z))) 2000%Z
          (fun i => N.of_nat i) 0.

(** The update that sets nothing. *)
Definition no_updates : TaskUpdate.t := TaskUpdate.mk None None None None None None.

(* ------------------------------------------------------------------------- *)
(** ** Start-up configuration and the root endpoint *)

(** [s.split(sep)] for a separator of one character: the pieces between the
    separators, in order; there is always at least one piece. *)
Fixpoint split (sep : ascii) (s : string) : list string :=
  match s with
  | EmptyString => [EmptyString]
  | String c s' =>
      if Ascii.eqb c sep then EmptyString :: split sep s'
      else match split sep s' with
           | piece :: pieces => String c piece :: pieces
           | [] => [String c EmptyString]
           end
  end.

(** [sep.join(pieces)] *)
Fixpoint join (sep : string) (pieces : list string) : string :=
  match pieces with
  | [] => EmptyString
  | [piece] => piece
  | piece :: pieces' => (piece ++ sep ++ join sep pieces')%string
  end.

(** [os.getenv(key, default)], [value] being what the environment holds for
    [key], if anything. *)
Definition getenv (value : option string) (default : string) : string :=
  match value with
  | Some v => v
  | None => default
  end.

(** [cors_origins_str], from the variable [CORS_ORIGINS]. *)
Definition cors_origins_str (CORS_ORIGINS : option string) : string :=
  getenv CORS_ORIGINS "http://localhost:5173,http://localhost:3000".

(** [cors_origins]: [[origin.strip() for origin in cors_origins_str.split(",")]] *)
Definition cors_origins (CORS_ORIGINS : option string) : list string :=
  map Str.strip (split "," (cors_origins_str CORS_ORIGINS)).

(** The body of the answer of [/]. *)
Module Welcome.
Record t : Type := mk {
  message : string;
  version : string;
  docs : string
}.
End Welcome.

(** [root] *)
Definition root : M Welcome.t :=
  ret (Welcome.mk "Welcome to TaskFlow API" "1.0.0" "/docs").

(** [GET /] *)
Definition GET_root (w : World) : (Exception + Welcome.t) * World :=
  respond root w.

(* ------------------------------------------------------------------------- *)
(** ** Further vocabulary *)

(** The number of occurrences of a character. *)
Fixpoint count_char (c : ascii) (s : string) : nat :=
  match s with
  | EmptyString => O
  | String d s' => (if Ascii.eqb d c then 1 else 0) + count_char c s'
  end.

(** No character is whitespace. *)
Fixpoint spaceless (s : string) : bool :=
  match s with
  | EmptyString => true
  | String c s' => negb (Str.isspace c) && spaceless s'
  end.

(** The first and the last character of a string. *)
Definition first_char (s : string) : option ascii :=
  match s with
  | EmptyString => None
  | String c _ => Some c
  end.

Fixpoint last_char (s : string) : option ascii :=
  match s with
  | EmptyString => None
  | String c EmptyString => Some c
  | String _ s' => last_char s'
  end.

(** The rows other than those keyed [k], in stored order. *)
Definition without_key (k : string) (rows : list TaskModel.t) : list TaskModel.t :=
  List.filter (fun r => negb (String.eqb (TaskModel.id r) k)) rows.

(** The lengths the declared fields of [TaskCreate] allow. *)
Definition within_bounds (r : TaskModel.t) : Prop :=
  (1 <= String.length (TaskModel.title r) <= 200)%nat /\
  (forall s, TaskModel.description r = Some s -> (String.length s <= 1000)%nat) /\
  (forall s, TaskModel.assignee r = Some s -> (String.length s <= 100)%nat).

(** The character of a string at an index. *)
Definition char_at (i : nat) (s : string) : option ascii := String.get i s.

(** The shape of the text of a version 4 UUID: 36 characters, hyphens after
    the groups of 8, 4, 4 and 4 digits, the version digit 4, and a variant
    digit among 8, 9, a and b. *)
Definition uuid4_text (s : string) : Prop :=
  String.length s = 36%nat /\
  char_at 8 s = Some "-"%char /\ char_at 13 s = Some "-"%char /\
  char_at 18 s = Some "-"%char /\ char_at 23 s = Some "-"%char /\
  char_at 14 s = Some "4"%char /\
  (exists v, char_at 19 s = Some v /\ In v ["8"; "9"; "a"; "b"]%char).

(** The status code of an answer, [success] being the code of the route. *)
Definition answer_code {A} (success : Z) (r : Exception + A) : Z :=
  match r with
  | inr _ => success
  | inl e => status_code e
  end.

(** The sample table of bob's task while the database is away. *)
Definition w_down : World :=
  mkWorld [r_bob; r_free] (Some "connection refused") None 2000%Z
          (fun i => N.of_nat i) 2.

(** The engine of [w_five] comparing a text key with an integer. *)
Definition decimal_eq (k : string) (z : Z) : bool := String.eqb k (Str.of_int z).





(* ========================================================================= *)
(** * Properties *)

(* ------------------------------------------------------------------------- *)
(** ** The model on small inputs *)

Example strip_inner_space : Str.strip "  a b  " = "a b".
Proof. reflexivity. Qed.

Example blank_tab_and_space :
  Str.blank (String (ascii_of_nat 9) " ") = true /\ Str.blank " a " = false.
Proof. split; reflexivity. Qed.

Example uuid4_of_zeros :
  uuid.str (uuid.uuid4 0) = "00000000-0000-4000-8000-000000000000".
Proof. reflexivity. Qed.

Example uuid4_of_ones :
  uuid.str (uuid.uuid4 (2 ^ 128 - 1)) = "ffffffff-ffff-4fff-bfff-ffffffffffff".
Proof. reflexivity. Qed.

Example decimal_int_samples :
  decimal_int "42" = Some 42%Z /\ decimal_int "-7" = Some (-7)%Z /\
  decimal_int "00000000-0000-4000-8000-000000000000" = None.
Proof. repeat split; reflexivity. Qed.

(** The first create of the sample run: 201 with the defaults TODO and
    MEDIUM. *)
Example create_write_spec : POST_tasks b_spec w_start = (inr t_one, w_one).
Proof. reflexivity. Qed.

(** Delete of the task just created, then get on its id: 204, then 404. *)
Example delete_then_get :
  DELETE_tasks_id (Task.id t_one) w_one = (inr tt, with_drawn 1 w_start) /\
  fst (GET_tasks_id (Task.id t_one) (with_drawn 1 w_start))
  = inl (HTTPException 404
           "Task 00000000-0000-4000-8000-000000000000 not found").
Proof. split; reflexivity. Qed.

(** A second create that draws the identifier of a stored row is refused by
    the primary key: 500, nothing written. *)
Example create_duplicate_key :
  fst (POST_tasks b_spec (with_drawn 0 w_one))
  = inl (HTTPException 500 detail_sauvegarde) /\
  tasks (snd (POST_tasks b_spec (with_drawn 0 w_one))) = tasks w_one.
Proof. split; reflexivity. Qed.

(** An update on a key that reads as an integer and is found. *)
Example update_found_row :
  PUT_tasks_id decimal_int "5" empty_body w_five
  = (inl (TypeError "argument of type 'TaskModel' is not iterable"), w_five).
Proof. reflexivity. Qed.

(* ------------------------------------------------------------------------- *)
(** ** Strings *)

Lemma lstrip_blank (s : string) : Str.blank s = true -> Str.lstrip s = EmptyString.
Proof.
  induction s as [|c s IH]; simpl; [reflexivity|].
  intros H. apply andb_true_iff in H. destruct H as [Hc Hs].
  rewrite Hc. now apply IH.
Qed.

Lemma lstrip_not_blank (s : string) :
  Str.blank s = false ->
  exists c r, Str.lstrip s = String c r /\ Str.isspace c = false.
Proof.
  induction s as [|c s IH]; simpl; [discriminate|].
  destruct (Str.isspace c) eqn:Hc; simpl.
  - exact IH.
  - intros _. now exists c, s.
Qed.

Lemma rstrip_head (c : ascii) (r : string) :
  Str.isspace c = false -> Str.truthy (Str.rstrip (String c r)) = true.
Proof.
  intros Hc. simpl. destruct (Str.rstrip r); [rewrite Hc|]; reflexivity.
Qed.

(** [s.strip()] is empty exactly when [s] holds nothing but whitespace. *)
Lemma strip_truthy (s : string) :
  Str.truthy (Str.strip s) = negb (Str.blank s).
Proof.
  unfold Str.strip. destruct (Str.blank s) eqn:Hb.
  - now rewrite (lstrip_blank s Hb).
  - destruct (lstrip_not_blank s Hb) as (c & r & -> & Hc).
    now apply rstrip_head.
Qed.

Lemma blank_truthy (s : string) : Str.blank s = false -> Str.truthy s = true.
Proof. destruct s; [discriminate | reflexivity]. Qed.

Lemma len_length (lo hi : nat) (s : string) :
  length_within (Z.of_nat lo) (Z.of_nat hi) s
  = Nat.leb lo (String.length s) && Nat.leb (String.length s) hi.
Proof.
  unfold length_within, Str.len.
  destruct (Nat.leb_spec lo (String.length s)), (Nat.leb_spec (String.length s) hi);
    simpl; repeat match goal with
           | |- context [(?a <=? ?b)%Z] => destruct (Z.leb_spec a b); simpl
           end; try reflexivity; lia.
Qed.

(* ------------------------------------------------------------------------- *)
(** ** UUIDs *)

Lemma hexdigit_cases (d : N) : In (uuid.hexdigit d) uuid.hexdigits.
Proof.
  unfold uuid.hexdigit.
  destruct (nth_in_or_default (N.to_nat d) uuid.hexdigits "0"%char) as [H | H].
  - exact H.
  - rewrite H. simpl. now left.
Qed.

Lemma hexdigit_not_space (d : N) : Str.isspace (uuid.hexdigit d) = false.
Proof.
  pose proof (hexdigit_cases d) as H. simpl in H.
  repeat (destruct H as [<- | H]; [reflexivity|]). destruct H.
Qed.







(** The text of a UUID starts with a hexadecimal digit and has a hyphen
    further on, so it does not read as an integer. *)
Lemma str_sign_leading (u : N) : sign_leading (uuid.str u) = false.
Proof.
  unfold uuid.str, sign_leading.
  cbn [uuid.format_x substring String.append Str.lstrip].
  rewrite hexdigit_not_space.
  cbn [Str.contains]. change (Ascii.eqb "-" "-") with true.
  now rewrite !orb_true_r.
Qed.

(* ------------------------------------------------------------------------- *)
(** ** Lists of rows *)

Lemma filter_all {A} (p : A -> bool) (l : list A) :
  (forall a, p a = true) -> List.filter p l = l.
Proof.
  intros H. induction l as [|a l IH]; simpl; [reflexivity|].
  now rewrite H, IH.
Qed.

Lemma filter_no_key (k : string) (rows : list TaskModel.t) :
  db.has_key k rows = false ->
  List.filter (fun r => String.eqb (TaskModel.id r) k && true) rows = [].
Proof.
  induction rows as [|r rows IH]; simpl; [reflexivity|].
  intros H. apply orb_false_iff in H. destruct H as [Hr Hk].
  rewrite Hr. simpl. now apply IH.
Qed.

Lemma remove_nil (rows : list TaskModel.t) : db.remove [] rows = rows.
Proof. unfold db.remove. now apply filter_all. Qed.

Lemma has_key_In (k : string) (rows : list TaskModel.t) :
  db.has_key k rows = true <-> exists r, In r rows /\ TaskModel.id r = k.
Proof.
  unfold db.has_key. rewrite existsb_exists.
  split; intros (r & Hin & H); exists r; split; trivial;
    now apply String.eqb_eq.
Qed.

Lemma from_attributes_row (x : Task.t) : Task.from_attributes (Task.row x) = inr x.
Proof. now destruct x. Qed.

Lemma row_from_attributes (r : TaskModel.t) (x : Task.t) :
  Task.from_attributes r = inr x -> Task.row x = r.
Proof.
  unfold Task.from_attributes. destruct r as [i ti de st pr asg du [c|] [u|]]; simpl;
    intros H; inversion H; reflexivity.
Qed.

Lemma list_from_attributes_stamped (rows : list TaskModel.t) :
  forallb stamped rows = true ->
  exists xs, Task.list_from_attributes rows = inr xs /\ map Task.row xs = rows.
Proof.
  induction rows as [|r rows IH]; simpl; intros H.
  - now exists [].
  - apply andb_true_iff in H. destruct H as [Hr Hs].
    destruct (IH Hs) as (xs & -> & E).
    unfold stamped in Hr. unfold Task.from_attributes.
    destruct r as [i ti de st pr asg du [c|] [u|]]; simpl in *; try discriminate.
    eexists. split; [reflexivity|]. simpl. now rewrite E.
Qed.

Lemma forallb_filter {A} (p q : A -> bool) (l : list A) :
  forallb p l = true -> forallb p (List.filter q l) = true.
Proof.
  rewrite !forallb_forall. intros H a Ha. apply filter_In in Ha. now apply H.
Qed.

(* ------------------------------------------------------------------------- *)
(** ** The routes, one by one *)

(** Unfolding of the session operations, to run a handler on a world whose
    components are visible. *)
Ltac run :=
  cbv [respond get_db close bind ret raise lift try_except datetime_now uuid4
       Query.all Query.first Query.count Query.filter db.query
       db.execute_select_1 db.add db.delete db.commit db.rollback db.refresh
       bound new deleted tasks outage text_eq_int clock entropy drawn
       with_tasks with_drawn];
  cbn [app].

Lemma GET_health_eq (w : World) :
  GET_health w
  = (inr match outage w with
         | None => Health.mk "healthy" "connected" (Some (List.length (tasks w)))
         | Some e => Health.mk "unhealthy" e None
         end, w).
Proof.
  destruct w as [rows o cmp c ent n].
  unfold GET_health, health_check. run.
  destruct o; cbn [Query.where_ Exception_str]; [reflexivity|].
  now rewrite filter_all.
Qed.

Lemma truthy_status (v : TaskStatus) : TaskStatus_truthy v = true.
Proof. now destruct v. Qed.

Lemma truthy_priority (v : TaskPriority) : TaskPriority_truthy v = true.
Proof. now destruct v. Qed.

(** The answer of list: the stored rows that equal every supplied filter, an
    empty assignee filter counting as not supplied. *)
Lemma GET_tasks_eq (st : option TaskStatus) (pr : option TaskPriority)
    (asg : option string) (w : World) :
  outage w = None ->
  GET_tasks st pr asg w
  = (match Task.list_from_attributes
             (List.filter (matches_supplied st pr (effective asg)) (tasks w)) with
     | inr xs => inr xs
     | inl e => inl e
     end, w).
Proof.
  intros Ho.
  assert (Q : forall q p,
             Query.where_ w q = inr p ->
             (forall r, p r = matches_supplied st pr (effective asg) r) ->
             respond (rows <- Query.all q ;; lift (Task.list_from_attributes rows)) w
             = (match Task.list_from_attributes
                        (List.filter (matches_supplied st pr (effective asg)) (tasks w)) with
                | inr xs => inr xs
                | inl e => inl e
                end, w)).
  { intros q p Hq Hp. destruct w as [rows o cmp c ent n]. simpl in Ho. subst o.
    run. cbv [outage tasks] in Hq. rewrite Hq. rewrite (filter_ext _ _ Hp).
    now destruct (Task.list_from_attributes _). }
  unfold GET_tasks, get_tasks.
  destruct st as [s|], pr as [p|], asg as [[|c a]|];
    rewrite ?truthy_status, ?truthy_priority; cbn [Str.truthy];
    (eapply Q; [reflexivity|]); intros r; unfold matches_supplied; simpl;
    rewrite ?andb_true_r, ?andb_assoc; reflexivity.
Qed.

Lemma title_check (s : string) :
  negb (Str.truthy s) || negb (Str.truthy (Str.strip s)) = Str.blank s.
Proof.
  rewrite strip_truthy, negb_involutive.
  destruct s as [|c s]; [reflexivity|]. reflexivity.
Qed.

(** A create request whose title is only whitespace is refused by the
    handler before anything is drawn or written. *)
Lemma create_task_blank (d : TaskCreate.t) (w : World) :
  Str.blank (TaskCreate.title d) = true ->
  respond (row <- create_task d ;; lift (Task.from_attributes row)) w
  = (inl (HTTPException 422 detail_titre_vide), w).
Proof.
  intros Hb. destruct w as [rows o cmp c ent n].
  unfold create_task. rewrite title_check, Hb. reflexivity.
Qed.

(** A create request that passes the title check draws an identifier and
    writes one row, unless the database is away or has the key already. *)
Lemma create_task_written (d : TaskCreate.t) (w : World) :
  Str.blank (TaskCreate.title d) = false ->
  respond (row <- create_task d ;; lift (Task.from_attributes row)) w
  = match outage w with
    | Some e => (inl (HTTPException 500 detail_sauvegarde),
                 with_drawn (S (drawn w)) w)
    | None =>
        if db.has_key (next_id w) (tasks w)
        then (inl (HTTPException 500 detail_sauvegarde),
              with_drawn (S (drawn w)) w)
        else (inr (created_task d w), created_world (created_task d w) w)
    end.
Proof.
  intros Hb. destruct w as [rows o cmp c ent n].
  unfold create_task. rewrite title_check, Hb.
  unfold next_id, created_task, created_world, next_id. run.
  destruct o as [e|]; [reflexivity|].
  cbn [db.insert TaskModel.id].
  destruct (db.has_key _ rows) eqn:Hk; [reflexivity|].
  rewrite remove_nil. cbn [Query.where_ Query.holds].
  rewrite filter_app, (filter_no_key _ _ Hk).
  cbn [List.filter TaskModel.defaults TaskModel.id TaskModel.created_at
       TaskModel.updated_at app].
  rewrite String.eqb_refl. reflexivity.
Qed.

(* ------------------------------------------------------------------------- *)
(** ** Validation of a create request *)

Lemma optional_str_ok (loc : string) (hi : nat) (f : Field string) :
  acceptable_length hi f = true ->
  exists o, optional_str loc 0 (Z.of_nat hi) f = inr o /\
            held o = match f with Value s => Some s | _ => None end.
Proof.
  destruct f as [| | |s]; simpl; intros H; try discriminate;
    try (eexists; split; reflexivity).
  change 0%Z with (Z.of_nat 0). rewrite len_length, H. simpl.
  eexists; split; reflexivity.
Qed.

Lemma defaulted_field_ok {A} (loc : string) (d : A) (f : Field A) :
  acceptable_enum f = true ->
  defaulted_field loc d f = inr (match f with Value v => v | _ => d end).
Proof. destruct f; simpl; intros H; try discriminate; reflexivity. Qed.

Lemma optional_field_ok {A} (loc : string) (f : Field A) :
  acceptable_optional f = true ->
  exists o, optional_field loc f = inr o /\
            held o = match f with Value v => Some v | _ => None end.
Proof.
  destruct f; simpl; intros H; try discriminate; eexists; split; reflexivity.
Qed.

(** A valid body passes the declared constraints of [TaskCreate], with the
    fields it asks for and a title that is not blank. *)
Lemma validate_valid (b : Body.t) :
  valid_create b = true ->
  exists d, TaskCreate.validate b = inr d /\
            Str.blank (TaskCreate.title d) = false /\
            Body.title b = Value (TaskCreate.title d) /\
            TaskCreate.description d
              = match Body.description b with Value s => Some s | _ => None end /\
            TaskCreate.status d
              = match Body.status b with Value v => v | _ => TODO end /\
            TaskCreate.priority d
              = match Body.priority b with Value v => v | _ => MEDIUM end /\
            TaskCreate.assignee d
              = match Body.assignee b with Value s => Some s | _ => None end /\
            TaskCreate.due_date d
              = match Body.due_date b with Value v => Some v | _ => None end.
Proof.
  unfold valid_create. intros H.
  repeat (apply andb_true_iff in H; destruct H as [H ?]).
  destruct (Body.title b) as [| | |s] eqn:Ht; try discriminate.
  repeat (apply andb_true_iff in H; destruct H as [H ?]).
  destruct (optional_str_ok "description" 1000 _ ltac:(eassumption)) as (de & Ede & Hde).
  destruct (optional_str_ok "assignee" 100 _ ltac:(eassumption)) as (asg & Easg & Hasg).
  destruct (optional_field_ok "due_date" (Body.due_date b) ltac:(eassumption))
    as (du & Edu & Hdu).
  unfold TaskCreate.validate. rewrite Ht. unfold required_str.
  change 1%Z with (Z.of_nat 1). change 200%Z with (Z.of_nat 200).
  rewrite len_length, H. replace (Nat.leb (String.length s) 200) with true by auto.
  change (Z.of_nat 1000) with 1000%Z in Ede. change (Z.of_nat 100) with 100%Z in Easg.
  cbn [andb and_then]. rewrite Ede. cbn [and_then].
  rewrite (defaulted_field_ok "status" TODO) by assumption. cbn [and_then].
  rewrite (defaulted_field_ok "priority" MEDIUM) by assumption. cbn [and_then].
  rewrite Easg. cbn [and_then]. rewrite Edu. cbn [and_then].
  eexists. split; [reflexivity|]. cbn.
  repeat split; try assumption. now apply negb_true_iff.
Qed.

Lemma required_str_422 loc lo hi f e :
  required_str loc lo hi f = inl e -> status_code e = 422%Z.
Proof.
  unfold required_str. destruct f; try destruct (length_within _ _ _);
    intros H; inversion H; reflexivity.
Qed.

Lemma optional_str_422 loc lo hi f e :
  optional_str loc lo hi f = inl e -> status_code e = 422%Z.
Proof.
  unfold optional_str. destruct f; try destruct (length_within _ _ _);
    intros H; inversion H; reflexivity.
Qed.

Lemma optional_field_422 {A} loc (f : Field A) e :
  optional_field loc f = inl e -> status_code e = 422%Z.
Proof. destruct f; intros H; inversion H; reflexivity. Qed.

Lemma defaulted_field_422 {A} loc (d : A) (f : Field A) e :
  defaulted_field loc d f = inl e -> status_code e = 422%Z.
Proof. destruct f; intros H; inversion H; reflexivity. Qed.

Create HintDb unprocessable.
#[local] Hint Resolve required_str_422 optional_str_422 optional_field_422
  defaulted_field_422 : unprocessable.

Ltac step_validation :=
  match goal with
  | |- context [and_then ?r _] =>
      let E := fresh "E" in destruct r eqn:E; cbn [and_then]
  end.

(** A body refused by the declared constraints is answered with 422. *)
Lemma validate_422 (b : Body.t) (e : Exception) :
  TaskCreate.validate b = inl e -> status_code e = 422%Z.
Proof.
  unfold TaskCreate.validate. repeat step_validation;
    intros H; inversion H; subst; eauto with unprocessable.
Qed.

Lemma validate_title (b : Body.t) (d : TaskCreate.t) :
  TaskCreate.validate b = inr d -> Body.title b = Value (TaskCreate.title d).
Proof.
  unfold TaskCreate.validate. repeat step_validation;
    intros H; inversion H; subst; cbn.
  match goal with E : required_str _ _ _ _ = inr _ |- _ => revert E end.
  unfold required_str. destruct (Body.title b); try discriminate.
  destruct (length_within _ _ _); intros E; inversion E; reflexivity.
Qed.

Lemma update_validate_422 (b : Body.t) (e : Exception) :
  TaskUpdate.validate b = inl e -> status_code e = 422%Z.
Proof.
  unfold TaskUpdate.validate. repeat step_validation;
    intros H; inversion H; subst; eauto with unprocessable.
Qed.

(* ------------------------------------------------------------------------- *)
(** ** What each request does to the world *)

(** A valid create, on a database that answers and does not hold the drawn
    identifier yet, returns the task and appends its row. *)
Lemma POST_tasks_valid (b : Body.t) (w : World) :
  valid_create b = true ->
  outage w = None ->
  db.has_key (next_id w) (tasks w) = false ->
  exists x, POST_tasks b w = (inr x, created_world x w) /\
            Task.id x = next_id w /\
            Task.created_at x = clock w /\
            Task.updated_at x = clock w /\
            requested b x.
Proof.
  intros Hv Ho Hk.
  destruct (validate_valid b Hv) as (d & Ed & Hb & Ht & Hde & Hst & Hpr & Hasg & Hdu).
  unfold POST_tasks. rewrite Ed, (create_task_written d w Hb), Ho, Hk.
  exists (created_task d w). repeat split; assumption.
Qed.

(** The three ways a create request can end. *)
Lemma POST_tasks_cases (b : Body.t) (w : World) :
  (exists e, POST_tasks b w = (inl e, w)) \/
  (exists e, POST_tasks b w = (inl e, with_drawn (S (drawn w)) w)) \/
  (exists x, POST_tasks b w = (inr x, created_world x w) /\
             Task.id x = next_id w /\
             title_ok (Task.row x) /\
             outage w = None /\
             db.has_key (next_id w) (tasks w) = false).
Proof.
  unfold POST_tasks. destruct (TaskCreate.validate b) as [e|d]; [left; eauto|].
  destruct (Str.blank (TaskCreate.title d)) eqn:Hb.
  - left. rewrite (create_task_blank d w Hb). eauto.
  - right. rewrite (create_task_written d w Hb).
    destruct (outage w); [left; eauto|].
    destruct (db.has_key (next_id w) (tasks w)) eqn:Hk; [left; eauto|].
    right. exists (created_task d w). repeat split; trivial.
    cbn. intros E. rewrite E in Hb. discriminate.
Qed.

Lemma with_tasks_same (w : World) : with_tasks (tasks w) w = w.
Proof. now destruct w. Qed.

(** Reading requests leave the world as it is. *)
Lemma GET_tasks_frame st pr asg (w : World) : snd (GET_tasks st pr asg w) = w.
Proof.
  destruct w as [rows o cmp c ent n]. unfold GET_tasks, get_tasks. run.
  destruct o; [reflexivity|].
  destruct (Query.where_ _ _); [reflexivity|].
  now destruct (Task.list_from_attributes _).
Qed.

Lemma GET_tasks_id_frame (k : string) (w : World) : snd (GET_tasks_id k w) = w.
Proof.
  destruct w as [rows o cmp c ent n]. unfold GET_tasks_id, get_task. run.
  destruct o; [reflexivity|]. cbn [Query.where_ Query.holds].
  destruct (hd_error _); [|reflexivity].
  now destruct (Task.from_attributes _).
Qed.

(** A delete request removes rows of the table and touches nothing else. *)
Lemma DELETE_tasks_id_frame (k : string) (w : World) :
  exists p, snd (DELETE_tasks_id k w) = with_tasks (List.filter p (tasks w)) w.
Proof.
  destruct w as [rows o cmp c ent n]. unfold DELETE_tasks_id, delete_task. run.
  destruct o.
  { exists (fun _ => true). cbn. now rewrite filter_all. }
  cbn [Query.where_ Query.holds].
  destruct (hd_error _) as [r|].
  - eexists. cbn [db.insert db.remove snd]. reflexivity.
  - exists (fun _ => true). cbn. now rewrite filter_all.
Qed.

(** An update request never returns a task and never changes the world:
    either the request is refused before the handler runs, or the lookup
    fails or finds nothing, or the handler stops at [task_id not in tasks_db]. *)
Lemma PUT_tasks_id_fails (int_of_path : string -> option Z)
    (k : string) (b : Body.t) (w : World) :
  exists e, PUT_tasks_id int_of_path k b w = (inl e, w).
Proof.
  unfold PUT_tasks_id.
  destruct (int_of_path k) as [z|]; [|eauto].
  destruct (TaskUpdate.validate b) as [e|u]; [eauto|].
  destruct w as [rows o cmp c ent n]. unfold update_task. run.
  destruct o; [eauto|]. cbn [Query.where_ Query.holds text_eq_int].
  destruct cmp as [f|]; [|eauto].
  destruct (Query.int64 z); [|eauto].
  destruct (hd_error _); unfold not_in_TaskModel; run; eauto.
Qed.

(* ------------------------------------------------------------------------- *)
(** ** Runs of the service *)

Lemma digits_no_minus (s : string) (acc z : Z) :
  digits_value acc s = Some z -> Str.contains "-" s = false.
Proof.
  revert acc. induction s as [|c s IH]; intros acc;
    cbn [digits_value Str.contains]; [reflexivity|].
  destruct ((48 <=? N_of_ascii c)%N && (N_of_ascii c <=? 57)%N) eqn:Hd;
    [|discriminate].
  intros H. rewrite (IH _ H), orb_false_r.
  destruct (Ascii.eqb_spec "-" c) as [<- | _]; [|reflexivity].
  vm_compute in Hd. discriminate.
Qed.

Lemma digits_head_not_space (c : ascii) :
  ((48 <=? N_of_ascii c)%N && (N_of_ascii c <=? 57)%N) = true ->
  Str.isspace c = false.
Proof.
  unfold Str.isspace. intros H. apply andb_true_iff in H. destruct H as [H1 H2].
  apply N.leb_le in H1, H2.
  repeat match goal with
         | |- context [(?a <=? ?b)%N] => destruct (N.leb_spec a b)
         | |- context [(?a =? ?b)%N] => destruct (N.eqb_spec a b)
         end; simpl; try reflexivity; lia.
Qed.

(** The decimal coercion meets the assumption made on path parameters. *)
Lemma decimal_int_sign (s : string) :
  decimal_int s <> None -> sign_leading s = true.
Proof.
  destruct s as [|c s]; [reflexivity|].
  unfold decimal_int, sign_leading.
  destruct (Ascii.eqb_spec c "-") as [-> | N1].
  { destruct s as [|d s]; [congruence|]. cbn [Str.lstrip Str.isspace].
    change (Str.isspace "-") with false. cbv iota.
    destruct (digits_value 0 (String d s)) eqn:E; [|cbn; congruence].
    intros _. now rewrite (digits_no_minus _ _ _ E). }
  destruct (Ascii.eqb_spec c "+") as [-> | N2].
  { destruct s as [|d s]; [congruence|].
    change (Str.lstrip (String "+" (String d s))) with (String "+" (String d s)).
    destruct (digits_value 0 (String d s)) eqn:E; [|congruence].
    intros _. now rewrite (digits_no_minus _ _ _ E). }
  destruct (digits_value 0 (String c s)) eqn:E; [|congruence].
  intros _. pose proof (digits_no_minus _ _ _ E) as Hm.
  cbn [digits_value] in E.
  destruct ((48 <=? N_of_ascii c)%N && (N_of_ascii c <=? 57)%N) eqn:Hd;
    [|discriminate].
  cbn [Str.lstrip]. rewrite (digits_head_not_space c Hd).
  cbn [Str.contains] in Hm. apply orb_false_iff in Hm. now rewrite (proj2 Hm).
Qed.


Section Service.

Variable int_of_path : string -> option Z.

(** What holds of every world a run reaches: the rows of the table are rows
    of issued tasks, the identifier of an issued task is the text of a UUID
    drawn earlier, and the title of an issued task is not blank. *)
Lemma Run_inv (w : World) (issued : list Task.t) :
  Run int_of_path w issued ->
  (forall r, In r (tasks w) -> exists x, In x issued /\ r = Task.row x) /\
  (forall x, In x issued ->
     exists j, (j < drawn w)%nat /\ Task.id x = uuid.str (uuid.uuid4 (entropy w j))) /\
  (forall x, In x issued -> title_ok (Task.row x)).
Proof.
  induction 1 as [w Hw | w issued req HR (I1 & I2 & I3) | w issued o c HR (I1 & I2 & I3)].
  - rewrite Hw. split; [|split]; intros ? [].
  - destruct req as [| st pr asg | k | b | k b | k]; cbn [serve issues app].
    + rewrite GET_health_eq. cbn [snd]. auto.
    + rewrite GET_tasks_frame. auto.
    + rewrite GET_tasks_id_frame. auto.
    + destruct (POST_tasks_cases b w)
        as [(e & ->) | [(e & ->) | (x & -> & Hid & Ht & _ & _)]]; cbn [fst snd app].
      * auto.
      * destruct w as [rows o cmp c ent n]. cbn in *. split; [|split]; auto.
        intros x Hx. destruct (I2 x Hx) as (j & Hj & E). exists j. split; [lia | exact E].
      * destruct w as [rows o cmp c ent n]. unfold next_id in Hid. cbn in *.
        split; [|split].
        -- intros r Hr. apply in_app_or in Hr. destruct Hr as [Hr | [<- | []]].
           ++ destruct (I1 r Hr) as (y & Hy & E). exists y. auto.
           ++ exists x. auto.
        -- intros y [<- | Hy].
           ++ exists n. split; [lia | exact Hid].
           ++ destruct (I2 y Hy) as (j & Hj & E). exists j. split; [lia | exact E].
        -- intros y [<- | Hy]; auto.
    + destruct (PUT_tasks_id_fails int_of_path k b w) as (e & ->). cbn [snd]. auto.
    + destruct (DELETE_tasks_id_frame k w) as (p & ->).
      destruct w as [rows o cmp c ent n]. cbn in *. split; [|split]; auto.
      intros r Hr. apply filter_In in Hr. apply I1, Hr.
  - cbn. auto.
Qed.


End Service.

(** Reading back the task a create has just written. *)
Lemma GET_tasks_id_created (x : Task.t) (w : World) :
  outage w = None ->
  db.has_key (Task.id x) (tasks w) = false ->
  GET_tasks_id (Task.id x) (created_world x w) = (inr x, created_world x w).
Proof.
  intros Ho Hk. destruct w as [rows o cmp c ent n]. cbn in Ho, Hk. subst o.
  unfold GET_tasks_id, get_task, created_world. run.
  cbn [Query.where_ Query.holds].
  rewrite filter_app, (filter_no_key _ _ Hk).
  cbn [List.filter app]. replace (TaskModel.id (Task.row x)) with (Task.id x) by reflexivity.
  rewrite String.eqb_refl. cbn [andb hd_error].
  now rewrite from_attributes_row.
Qed.

(** Every request keeps the titles of the stored rows non-blank. *)
Lemma serve_title_ok (int_of_path : string -> option Z) (req : Request) (w : World) :
  (forall r, In r (tasks w) -> title_ok r) ->
  forall r, In r (tasks (serve int_of_path req w)) -> title_ok r.
Proof.
  intros I. destruct req as [| st pr asg | k | b | k b | k]; cbn [serve].
  - rewrite GET_health_eq. exact I.
  - rewrite GET_tasks_frame. exact I.
  - rewrite GET_tasks_id_frame. exact I.
  - destruct (POST_tasks_cases b w)
      as [(e & ->) | [(e & ->) | (x & -> & _ & Ht & _ & _)]]; cbn [snd].
    + exact I.
    + destruct w; exact I.
    + intros r Hr. cbn in Hr. apply in_app_or in Hr.
      destruct Hr as [Hr | [<- | []]]; auto.
  - destruct (PUT_tasks_id_fails int_of_path k b w) as (e & ->). exact I.
  - destruct (DELETE_tasks_id_frame k w) as (p & ->).
    intros r Hr. destruct w; cbn in Hr. apply filter_In in Hr. apply I, Hr.
Qed.

(* ------------------------------------------------------------------------- *)
(** ** The task service *)

Section Claims.

Variable int_of_path : string -> option Z.

(** What is assumed of the coercion of a path parameter declared [int]: a
    segment it accepts has its minus sign, if any, in front. *)
Hypothesis int_of_path_sign :
  forall s, int_of_path s <> None -> sign_leading s = true.

Lemma int_of_path_uuid (u : N) : int_of_path (uuid.str u) = None.
Proof.
  destruct (int_of_path (uuid.str u)) eqn:E; [|reflexivity].
  assert (H : sign_leading (uuid.str u) = true)
    by (apply int_of_path_sign; congruence).
  rewrite str_sign_leading in H. discriminate.
Qed.

(** The route of update refuses the identifier of every stored task of a run,
    whatever the body. *)
Lemma PUT_tasks_id_stored (w : World) (issued : list Task.t) (r : TaskModel.t)
    (b : Body.t) :
  Run int_of_path w issued -> In r (tasks w) ->
  PUT_tasks_id int_of_path (TaskModel.id r) b w
  = (inl (RequestValidationError "task_id"), w).
Proof.
  intros HR Hr. destruct (Run_inv int_of_path w issued HR) as (I1 & I2 & _).
  destruct (I1 r Hr) as (x & Hx & ->). destruct (I2 x Hx) as (j & _ & E).
  unfold PUT_tasks_id. change (TaskModel.id (Task.row x)) with (Task.id x).
  now rewrite E, int_of_path_uuid.
Qed.

(** C1 (the code departs from this claim): update with an empty partial input
    on the identifier of a stored task should succeed and change only
    [updated_at]. On the task the first create of the sample run stores, the
    route answers with a validation error on the path parameter, and no
    coercion of the path makes the update return a task. *)
Theorem update_empty_input_fails :
  POST_tasks b_spec w_start = (inr t_one, w_one) /\
  In (Task.row t_one) (tasks w_one) /\
  PUT_tasks_id decimal_int (Task.id t_one) empty_body w_one
  = (inl (RequestValidationError "task_id"), w_one) /\
  (forall coerce, exists e,
      PUT_tasks_id coerce (Task.id t_one) empty_body w_one = (inl e, w_one)).
Proof.
  split; [reflexivity|]. split; [now left|]. split; [reflexivity|].
  intros coerce. apply PUT_tasks_id_fails.
Qed.


(** C4: create with a missing, empty or whitespace-only title fails with 422
    and leaves the world as it was: no record is persisted and the count of
    stored tasks is unchanged. *)
Theorem create_blank_title_rejected (b : Body.t) (w : World) :
  title_missing_or_blank b = true ->
  exists e,
    POST_tasks b w = (inl e, w) /\
    status_code e = 422%Z /\
    List.length (tasks (snd (POST_tasks b w))) = List.length (tasks w) /\
    fst (GET_health (snd (POST_tasks b w))) = fst (GET_health w).
Proof.
  intros Hb.
  assert (A : exists e, POST_tasks b w = (inl e, w) /\ status_code e = 422%Z).
  { unfold POST_tasks. destruct (TaskCreate.validate b) as [e|d] eqn:E.
    - exists e. split; [reflexivity | now apply (validate_422 b)].
    - apply validate_title in E. unfold title_missing_or_blank in Hb.
      rewrite E in Hb. rewrite (create_task_blank d w Hb). eauto. }
  destruct A as (e & E & He). exists e. rewrite E. auto.
Qed.

(** C5: for every valid create input, on a database that answers and does
    not hold the drawn identifier yet, create returns a task and get on its
    id returns that task, equal in every field. *)
Theorem get_returns_created (b : Body.t) (w : World) :
  valid_create b = true ->
  outage w = None ->
  db.has_key (next_id w) (tasks w) = false ->
  exists x w',
    POST_tasks b w = (inr x, w') /\
    GET_tasks_id (Task.id x) w' = (inr x, w').
Proof.
  intros Hv Ho Hk.
  destruct (POST_tasks_valid b w Hv Ho Hk) as (x & E & Hid & _).
  exists x, (created_world x w). split; [exact E|].
  apply GET_tasks_id_created; [exact Ho | now rewrite Hid].
Qed.

(** C6 (amended): on a database that answers, with stamped rows, list returns
    exactly the stored tasks that equal every supplied filter, where an
    assignee filter that is the empty string counts as not supplied; with no
    filter it returns all stored tasks, and with status DONE exactly the
    stored tasks whose status is DONE. *)
Theorem list_returns_matching (w : World) :
  outage w = None ->
  forallb stamped (tasks w) = true ->
  (forall st pr asg,
      exists xs,
        GET_tasks st pr asg w = (inr xs, w) /\
        map Task.row xs
        = List.filter (matches_supplied st pr (effective asg)) (tasks w)) /\
  (exists xs,
      GET_tasks None None None w = (inr xs, w) /\ map Task.row xs = tasks w) /\
  (exists xs,
      GET_tasks (Some DONE) None None w = (inr xs, w) /\
      forall r, In r (map Task.row xs)
                <-> In r (tasks w) /\ TaskModel.status r = DONE).
Proof.
  intros Ho Hs.
  assert (G : forall st pr asg,
             exists xs,
               GET_tasks st pr asg w = (inr xs, w) /\
               map Task.row xs
               = List.filter (matches_supplied st pr (effective asg)) (tasks w)).
  { intros st pr asg. rewrite (GET_tasks_eq st pr asg w Ho).
    destruct (list_from_attributes_stamped
                (List.filter (matches_supplied st pr (effective asg)) (tasks w)))
      as (xs & -> & E); [now apply forallb_filter|].
    now exists xs. }
  split; [exact G|]. split.
  - destruct (G None None None) as (xs & E & Hx). exists xs. split; [exact E|].
    rewrite Hx. now apply filter_all.
  - destruct (G (Some DONE) None None) as (xs & E & Hx). exists xs.
    split; [exact E|]. intros r. rewrite Hx, filter_In.
    unfold matches_supplied. cbn [effective]. rewrite !andb_true_r.
    destruct (TaskModel.status r); cbn; intuition congruence.
Qed.

(** C7: every request keeps the titles of the stored tasks neither empty nor
    whitespace-only, and so every stored task of every run of create, update
    and delete requests (and of the reading requests) has such a title. *)
Theorem stored_titles_never_blank :
  (forall req w,
      (forall r, In r (tasks w) -> title_ok r) ->
      forall r, In r (tasks (serve int_of_path req w)) -> title_ok r) /\
  (forall w issued,
      Run int_of_path w issued -> forall r, In r (tasks w) -> title_ok r).
Proof.
  split.
  - intros req w. apply serve_title_ok.
  - intros w issued HR r Hr.
    destruct (Run_inv int_of_path w issued HR) as (I1 & _ & I3).
    destruct (I1 r Hr) as (x & Hx & ->). now apply I3.
Qed.

(** C8: health never raises: it answers "healthy" with the count of stored
    tasks when the database answers, and "unhealthy" with the description of
    the error when it does not; the world is left as it was. *)
Theorem health_never_raises (w : World) :
  exists h,
    GET_health w = (inr h, w) /\
    match outage w with
    | None => Health.status h = "healthy" /\
              Health.database h = "connected" /\
              Health.tasks_count h = Some (List.length (tasks w))
    | Some e => Health.status h = "unhealthy" /\
                Health.database h = e /\
                Health.tasks_count h = None
    end.
Proof.
  rewrite GET_health_eq. eexists. split; [reflexivity|].
  destruct (outage w); cbn; auto.
Qed.

(** C9: update never completes successfully. Whatever the path, the body and
    the world, the route returns an error and leaves the world as it was; on
    the id of a task stored by create the path parameter, the text of a UUID,
    is refused by the coercion to [int]; and when the lookup does find a
    record the handler raises a [TypeError] at [task_id not in tasks_db]. *)
Theorem update_never_succeeds :
  (forall k b w, exists e, PUT_tasks_id int_of_path k b w = (inl e, w)) /\
  (forall w issued r b,
      Run int_of_path w issued -> In r (tasks w) ->
      PUT_tasks_id int_of_path (TaskModel.id r) b w
      = (inl (RequestValidationError "task_id"), w)) /\
  (forall task_id updates s r,
      Query.first (Query.filter db.query (Query.id_eq_int task_id)) s
      = (inr (Some r), s) ->
      update_task task_id updates s
      = (inl (TypeError "argument of type 'TaskModel' is not iterable"), s)).
Proof.
  split; [|split].
  - intros k b w. apply PUT_tasks_id_fails.
  - intros w issued r b. apply PUT_tasks_id_stored.
  - intros task_id updates s r H. unfold update_task, bind at 1. now rewrite H.
Qed.

(** C10: list treats an assignee filter that is the empty string as no filter:
    the answer is that of the call without it, and with no other filter it is
    all the stored tasks. *)
Theorem list_empty_assignee_is_no_filter (w : World) :
  (forall st pr, GET_tasks st pr (Some EmptyString) w = GET_tasks st pr None w) /\
  (outage w = None ->
   forallb stamped (tasks w) = true ->
   exists xs,
     GET_tasks None None (Some EmptyString) w = (inr xs, w) /\
     map Task.row xs = tasks w).
Proof.
  split; [reflexivity|]. intros Ho Hs.
  rewrite (GET_tasks_eq None None (Some EmptyString) w Ho). cbn [effective].
  rewrite filter_all by reflexivity.
  destruct (list_from_attributes_stamped (tasks w) Hs) as (xs & -> & E).
  now exists xs.
Qed.

End Claims.

(* ------------------------------------------------------------------------- *)
(** ** The properties on the sample run *)

Lemma Run_w_one : Run decimal_int w_one [t_one].
Proof.
  exact (Run_request decimal_int w_start [] (create b_spec)
           (Run_start decimal_int w_start eq_refl)).
Qed.

(** C6 as the spec words it fails: on the table of bob's task and the
    unassigned one, list with the assignee filter [""] returns both tasks,
    although neither has the empty string as assignee. *)
Lemma list_empty_assignee_counterexample :
  ~ lists_exactly_supplied None None (Some EmptyString) w_bob.
Proof.
  intros (xs & E & H).
  assert (G : GET_tasks None None (Some EmptyString) w_bob
              = (inr [Task.mk "00000000-0000-4000-8000-000000000000" "Write spec"
                              None DONE MEDIUM (Some "bob") None 1000%Z 1000%Z;
                      Task.mk "00000000-0000-4000-8000-000000000001" "Review"
                              None TODO HIGH None None 1001%Z 1001%Z], w_bob))
    by reflexivity.
  rewrite G in E. inversion E; subst. discriminate H.
Qed.




Lemma create_blank_title_rejected_witness :
  title_missing_or_blank (title_body "   ") = true /\
  exists e,
    POST_tasks (title_body "   ") w_one = (inl e, w_one) /\
    status_code e = 422%Z /\
    List.length (tasks (snd (POST_tasks (title_body "   ") w_one)))
    = List.length (tasks w_one) /\
    fst (GET_health (snd (POST_tasks (title_body "   ") w_one)))
    = fst (GET_health w_one).
Proof.
  split; [reflexivity|].
  apply (create_blank_title_rejected (title_body "   ") w_one); reflexivity.
Defined.

Lemma get_returns_created_witness :
  valid_create b_spec = true /\
  outage w_one = None /\
  db.has_key (next_id w_one) (tasks w_one) = false /\
  exists x w',
    POST_tasks b_spec w_one = (inr x, w') /\
    GET_tasks_id (Task.id x) w' = (inr x, w').
Proof.
  split; [reflexivity|]. split; [reflexivity|]. split; [reflexivity|].
  apply (get_returns_created b_spec w_one); reflexivity.
Defined.

Lemma list_returns_matching_witness :
  outage w_bob = None /\
  forallb stamped (tasks w_bob) = true /\
  exists xs,
    GET_tasks (Some DONE) None (Some "bob") w_bob = (inr xs, w_bob) /\
    map Task.row xs
    = List.filter (matches_supplied (Some DONE) None (effective (Some "bob")))
                  (tasks w_bob).
Proof.
  split; [reflexivity|]. split; [reflexivity|].
  apply (proj1 (list_returns_matching w_bob eq_refl eq_refl)).
Defined.

Lemma stored_titles_never_blank_witness :
  Run decimal_int w_one [t_one] /\
  (forall r, In r (tasks w_one) -> title_ok r) /\
  (forall r, In r (tasks (serve decimal_int (create (title_body "   ")) w_one)) ->
             title_ok r).
Proof.
  split; [exact Run_w_one|].
  assert (T : forall r, In r (tasks w_one) -> title_ok r)
    by exact (proj2 (stored_titles_never_blank decimal_int) w_one [t_one] Run_w_one).
  split; [exact T|].
  exact (proj1 (stored_titles_never_blank decimal_int)
           (create (title_body "   ")) w_one T).
Defined.

Lemma update_never_succeeds_witness :
  Run decimal_int w_one [t_one] /\
  In (Task.row t_one) (tasks w_one) /\
  PUT_tasks_id decimal_int (TaskModel.id (Task.row t_one)) empty_body w_one
  = (inl (RequestValidationError "task_id"), w_one) /\
  Query.first (Query.filter db.query (Query.id_eq_int 5)) (get_db w_five)
  = (inr (Some r_five), get_db w_five) /\
  update_task 5 no_updates (get_db w_five)
  = (inl (TypeError "argument of type 'TaskModel' is not iterable"), get_db w_five).
Proof.
  split; [exact Run_w_one|]. split; [left; reflexivity|]. split.
  - apply (proj1 (proj2 (update_never_succeeds decimal_int decimal_int_sign))
             w_one [t_one] (Task.row t_one) empty_body);
      [exact Run_w_one | left; reflexivity].
  - split; [reflexivity|].
    apply (proj2 (proj2 (update_never_succeeds decimal_int decimal_int_sign))
             5%Z no_updates (get_db w_five) r_five).
    reflexivity.
Defined.

Lemma list_empty_assignee_is_no_filter_witness :
  outage w_bob = None /\
  forallb stamped (tasks w_bob) = true /\
  exists xs,
    GET_tasks None None (Some EmptyString) w_bob = (inr xs, w_bob) /\
    map Task.row xs = tasks w_bob.
Proof.
  split; [reflexivity|]. split; [reflexivity|].
  apply (proj2 (list_empty_assignee_is_no_filter w_bob)); reflexivity.
Defined.

(* ========================================================================= *)
(** * Further properties of the handlers *)

(* ------------------------------------------------------------------------- *)
(** ** Create *)

Lemma required_str_inv (loc : string) (lo hi : nat) (f : Field string) (s : string) :
  required_str loc (Z.of_nat lo) (Z.of_nat hi) f = inr s ->
  f = Value s /\ (lo <= String.length s <= hi)%nat.
Proof.
  unfold required_str. destruct f as [| | |v]; try discriminate.
  rewrite len_length.
  destruct (Nat.leb_spec lo (String.length v)) as [L1|L1],
           (Nat.leb_spec (String.length v) hi) as [L2|L2];
    cbn [andb]; try discriminate.
  intros E. inversion E; subst. auto.
Qed.

Lemma optional_str_inv (loc : string) (hi : nat) (f : Field string)
    (o : option (option string)) :
  optional_str loc 0 (Z.of_nat hi) f = inr o ->
  acceptable_length hi f = true /\
  held o = match f with Value s => Some s | _ => None end /\
  (forall s, held o = Some s -> (String.length s <= hi)%nat).
Proof.
  unfold optional_str. destruct f as [| | |v]; cbn [acceptable_length];
    try discriminate.
  - intros H. inversion H. cbn. repeat split. discriminate.
  - intros H. inversion H. cbn. repeat split. discriminate.
  - change 0%Z with (Z.of_nat 0). rewrite len_length. cbn [Nat.leb andb].
    destruct (Nat.leb_spec (String.length v) hi) as [L|L]; try discriminate.
    intros H. inversion H. cbn. repeat split. intros s E. inversion E; subst; lia.
Qed.

Lemma defaulted_field_inv {A} (loc : string) (d : A) (f : Field A) (a : A) :
  defaulted_field loc d f = inr a -> acceptable_enum f = true.
Proof. destruct f; cbn; intros H; try discriminate; reflexivity. Qed.

Lemma optional_field_inv {A} (loc : string) (f : Field A) (o : option (option A)) :
  optional_field loc f = inr o -> acceptable_optional f = true.
Proof. destruct f; cbn; intros H; try discriminate; reflexivity. Qed.

(** What the declared fields of [TaskCreate] let through. *)
Lemma validate_inv (b : Body.t) (d : TaskCreate.t) :
  TaskCreate.validate b = inr d ->
  Body.title b = Value (TaskCreate.title d) /\
  (1 <= String.length (TaskCreate.title d) <= 200)%nat /\
  acceptable_length 1000 (Body.description b) = true /\
  acceptable_enum (Body.status b) = true /\
  acceptable_enum (Body.priority b) = true /\
  acceptable_length 100 (Body.assignee b) = true /\
  acceptable_optional (Body.due_date b) = true /\
  (forall s, TaskCreate.description d = Some s -> (String.length s <= 1000)%nat) /\
  (forall s, TaskCreate.assignee d = Some s -> (String.length s <= 100)%nat).
Proof.
  unfold TaskCreate.validate. repeat step_validation; try discriminate.
  intros H. inversion H; subst; clear H. cbn [TaskCreate.title
    TaskCreate.description TaskCreate.assignee].
  repeat match goal with
         | E : required_str _ 1 200 _ = inr _ |- _ =>
             apply (required_str_inv _ 1 200) in E; destruct E as [? ?]
         | E : optional_str _ 0 1000 _ = inr _ |- _ =>
             apply (optional_str_inv _ 1000) in E; destruct E as (? & ? & ?)
         | E : optional_str _ 0 100 _ = inr _ |- _ =>
             apply (optional_str_inv _ 100) in E; destruct E as (? & ? & ?)
         | E : defaulted_field _ _ _ = inr _ |- _ =>
             apply defaulted_field_inv in E
         | E : optional_field _ _ = inr _ |- _ =>
             apply optional_field_inv in E
         end.
  repeat split; auto; lia.
Qed.

Lemma valid_create_validate (b : Body.t) (d : TaskCreate.t) :
  TaskCreate.validate b = inr d -> Str.blank (TaskCreate.title d) = false ->
  valid_create b = true.
Proof.
  intros E Hb.
  destruct (validate_inv b d E) as (Ht & Hl & Hde & Hst & Hpr & Hasg & Hdu & _).
  unfold valid_create. rewrite Ht, Hb, Hde, Hst, Hpr, Hasg, Hdu.
  destruct (Nat.leb_spec 1 (String.length (TaskCreate.title d))); [|lia].
  destruct (Nat.leb_spec (String.length (TaskCreate.title d)) 200); [|lia].
  reflexivity.
Qed.

(** How a create request ends, with what it validated. *)
Lemma POST_tasks_inv (b : Body.t) (w : World) :
  match POST_tasks b w with
  | (inr x, w') =>
      exists d, TaskCreate.validate b = inr d /\
                Str.blank (TaskCreate.title d) = false /\
                outage w = None /\
                db.has_key (next_id w) (tasks w) = false /\
                x = created_task d w /\ w' = created_world x w
  | (inl e, w') =>
      tasks w' = tasks w /\
      (status_code e = 422%Z /\ w' = w /\ valid_create b = false \/
       e = HTTPException 500 detail_sauvegarde /\
       w' = with_drawn (S (drawn w)) w /\ valid_create b = true /\
       (outage w <> None \/ db.has_key (next_id w) (tasks w) = true))
  end.
Proof.
  unfold POST_tasks. destruct (TaskCreate.validate b) as [e|d] eqn:E.
  - split; [reflexivity|]. left. split; [now apply (validate_422 b)|].
    split; [reflexivity|].
    destruct (valid_create b) eqn:V; [|reflexivity].
    destruct (validate_valid b V) as (d & Ed & _). congruence.
  - destruct (Str.blank (TaskCreate.title d)) eqn:Hb.
    + rewrite (create_task_blank d w Hb). split; [reflexivity|]. left.
      split; [reflexivity|]. split; [reflexivity|].
      destruct (valid_create b) eqn:V; [|reflexivity].
      destruct (validate_valid b V) as (d' & Ed & Hb' & _). congruence.
    + rewrite (create_task_written d w Hb).
      pose proof (valid_create_validate b d E Hb) as V.
      destruct (outage w) eqn:Ho.
      { split; [now destruct w|]. right. repeat split; trivial. left. discriminate. }
      destruct (db.has_key (next_id w) (tasks w)) eqn:Hk.
      { split; [now destruct w|]. right. repeat split; trivial. now right. }
      exists d. repeat split; trivial.
Qed.

(** X1. Create answers 422 exactly when the body is not valid (a title that
    is missing, empty, blank or longer than 200 characters, a description
    over 1000, an assignee over 100, a null or undecodable status or
    priority, an undecodable field), and then leaves the world as it was. *)
Theorem create_rejects_exactly_invalid (b : Body.t) (w : World) :
  (answer_code 201 (fst (POST_tasks b w)) = 422%Z <-> valid_create b = false) /\
  (valid_create b = false -> snd (POST_tasks b w) = w).
Proof.
  pose proof (POST_tasks_inv b w) as H.
  destruct (POST_tasks b w) as [[e|x] w']; cbn [fst snd answer_code].
  - destruct H as (_ & [(H422 & Hw & Hv) | (-> & Hw & Hv & _)]).
    + repeat split; auto.
    + cbn. split; [split; [discriminate | congruence] | congruence].
  - destruct H as (d & E & Hb & _).
    pose proof (valid_create_validate b d E Hb) as V.
    split; [split; [discriminate | congruence] | congruence].
Qed.

(** X2. A successful create adds exactly one row, the one of the returned
    task, to the rows that were there, which it leaves untouched, under a
    key that was not stored; a create that fails, with 422 or with 500 after
    the rollback, leaves the table as it was. *)
Theorem create_appends_one_row (b : Body.t) (w : World) :
  match POST_tasks b w with
  | (inr x, w') =>
      tasks w' = tasks w ++ [Task.row x] /\
      db.has_key (Task.id x) (tasks w) = false /\
      List.length (tasks w') = S (List.length (tasks w))
  | (inl e, w') => tasks w' = tasks w
  end.
Proof.
  pose proof (POST_tasks_inv b w) as H.
  destruct (POST_tasks b w) as [[e|x] w'].
  - apply H.
  - destruct H as (d & _ & _ & _ & Hk & -> & ->). cbn [created_world tasks].
    repeat split; [exact Hk|]. rewrite length_app. cbn. lia.
Qed.

(** X3. When the commit of a valid create fails, because the database is
    away or because the drawn key is already stored, the handler rolls back
    and answers 500 with its message; the table is unchanged and one UUID has
    been consumed. *)
Theorem create_commit_failure (b : Body.t) (w : World) :
  valid_create b = true ->
  outage w <> None \/ db.has_key (next_id w) (tasks w) = true ->
  POST_tasks b w
  = (inl (HTTPException 500 detail_sauvegarde), with_drawn (S (drawn w)) w).
Proof.
  intros V F. destruct (validate_valid b V) as (d & E & Hb & _).
  unfold POST_tasks. rewrite E, (create_task_written d w Hb).
  destruct (outage w); [reflexivity|].
  destruct F as [F | ->]; [now destruct F | reflexivity].
Qed.

(** X4. Every row a create writes respects the declared lengths: a title of
    1 to 200 characters, a description of at most 1000, an assignee of at
    most 100; it carries the status and the priority of the body, TODO and
    MEDIUM when unset. *)
Theorem created_row_within_bounds (b : Body.t) (w : World) (x : Task.t) (w' : World) :
  POST_tasks b w = (inr x, w') ->
  within_bounds (Task.row x) /\
  Task.status x = match Body.status b with Value v => v | _ => TODO end /\
  Task.priority x = match Body.priority b with Value v => v | _ => MEDIUM end.
Proof.
  intros E. pose proof (POST_tasks_inv b w) as H. rewrite E in H.
  destruct H as (d & Ed & Hb & _ & _ & -> & _).
  assert (V : valid_create b = true) by now apply (valid_create_validate b d).
  destruct (validate_valid b V) as (d' & Ed' & _ & _ & _ & Hst & Hpr & _).
  assert (d' = d) by congruence. subst d'.
  destruct (validate_inv b d Ed) as (_ & Hl & _ & _ & _ & _ & _ & Hde & Hasg).
  unfold within_bounds. cbn. repeat split; auto; lia.
Qed.

(** X5. After a successful create the health endpoint counts one task more
    than were stored before. *)
Theorem health_counts_created (b : Body.t) (w : World) (x : Task.t) (w' : World) :
  POST_tasks b w = (inr x, w') ->
  fst (GET_health w')
  = inr (Health.mk "healthy" "connected" (Some (S (List.length (tasks w))))).
Proof.
  intros E. pose proof (POST_tasks_inv b w) as H. rewrite E in H.
  destruct H as (d & _ & _ & Ho & _ & _ & ->).
  rewrite GET_health_eq. cbn [fst created_world outage tasks]. rewrite Ho.
  rewrite length_app. cbn. now rewrite Nat.add_1_r.
Qed.

(* ------------------------------------------------------------------------- *)
(** ** Get and delete *)

Lemma filter_key_none (k : string) (rows : list TaskModel.t) :
  db.has_key k rows = false ->
  List.filter (fun r => String.eqb (TaskModel.id r) k && true) rows = [].
Proof. apply filter_no_key. Qed.

Lemma filter_key_some (k : string) (rows : list TaskModel.t) :
  db.has_key k rows = true ->
  exists r rest,
    List.filter (fun r => String.eqb (TaskModel.id r) k && true) rows = r :: rest /\
    In r rows /\ TaskModel.id r = k.
Proof.
  induction rows as [|a rows IH]; cbn; [discriminate|].
  destruct (String.eqb_spec (TaskModel.id a) k) as [E | N]; cbn.
  - intros _. exists a, (List.filter (fun r => String.eqb (TaskModel.id r) k && true) rows).
    auto.
  - intros H. destruct (IH H) as (r & rest & -> & Hin & Hid).
    exists r, rest. auto.
Qed.

(** The one row under a key that occurs once. *)
Lemma filter_key_unique (rows : list TaskModel.t) (r : TaskModel.t) :
  NoDup (map TaskModel.id rows) -> In r rows ->
  List.filter (fun a => String.eqb (TaskModel.id a) (TaskModel.id r) && true) rows = [r].
Proof.
  induction rows as [|a rows IH]; cbn; [intros _ []|].
  intros ND [-> | Hin]; inversion ND as [|? ? Hn ND']; subst.
  - rewrite String.eqb_refl. cbn. f_equal. apply filter_no_key.
    destruct (db.has_key (TaskModel.id r) rows) eqn:Hk; [|reflexivity].
    apply has_key_In in Hk. destruct Hk as (r' & Hr' & E).
    destruct Hn. rewrite <- E. now apply in_map.
  - destruct (String.eqb_spec (TaskModel.id a) (TaskModel.id r)) as [E | N]; cbn.
    + destruct Hn. rewrite E. now apply in_map.
    + now apply IH.
Qed.

Lemma GET_tasks_id_eq (k : string) (w : World) :
  GET_tasks_id k w
  = (match outage w with
     | Some e => inl (SQLAlchemyError e)
     | None =>
         match List.filter (fun r => String.eqb (TaskModel.id r) k && true) (tasks w) with
         | [] => inl (HTTPException 404 (detail_not_found k))
         | r :: _ => Task.from_attributes r
         end
     end, w).
Proof.
  destruct w as [rows o cmp c ent n]. unfold GET_tasks_id, get_task. run.
  destruct o; [reflexivity|]. cbn [Query.where_ Query.holds].
  destruct (List.filter _ rows) as [|r rest]; cbn [hd_error]; [reflexivity|].
  now destruct (Task.from_attributes r).
Qed.

Lemma remove_one (r : TaskModel.t) (rows : list TaskModel.t) :
  db.remove [r] rows = without_key (TaskModel.id r) rows.
Proof.
  unfold db.remove, without_key. apply filter_ext. intros a. cbn.
  now rewrite orb_false_r, String.eqb_sym.
Qed.

Lemma DELETE_tasks_id_eq (k : string) (w : World) :
  DELETE_tasks_id k w
  = match outage w with
    | Some e => (inl (SQLAlchemyError e), w)
    | None =>
        if db.has_key k (tasks w)
        then (inr tt, with_tasks (without_key k (tasks w)) w)
        else (inl (HTTPException 404 (detail_not_found k)), w)
    end.
Proof.
  destruct w as [rows o cmp c ent n]. unfold DELETE_tasks_id, delete_task. run.
  destruct o; [reflexivity|]. cbn [Query.where_ Query.holds].
  destruct (db.has_key k rows) eqn:Hk.
  - destruct (filter_key_some k rows Hk) as (r & rest & -> & _ & Hid).
    cbn [hd_error db.insert app]. now rewrite remove_one, Hid.
  - now rewrite (filter_key_none k rows Hk).
Qed.

Lemma has_key_without (k k' : string) (rows : list TaskModel.t) :
  db.has_key k' (without_key k rows)
  = negb (String.eqb k' k) && db.has_key k' rows.
Proof.
  unfold without_key, db.has_key.
  induction rows as [|a rows IH]; cbn; [now rewrite andb_false_r|].
  destruct (String.eqb_spec (TaskModel.id a) k) as [E | N]; cbn.
  - rewrite IH. destruct (String.eqb_spec (TaskModel.id a) k') as [E' | N']; cbn.
    + rewrite <- E', E, String.eqb_refl. reflexivity.
    + reflexivity.
  - rewrite IH. destruct (String.eqb_spec (TaskModel.id a) k') as [E' | N']; cbn.
    + destruct (String.eqb_spec k' k); [congruence | reflexivity].
    + reflexivity.
Qed.

Lemma filter_key_without (k k' : string) (rows : list TaskModel.t) :
  k' <> k ->
  List.filter (fun r => String.eqb (TaskModel.id r) k' && true) (without_key k rows)
  = List.filter (fun r => String.eqb (TaskModel.id r) k' && true) rows.
Proof.
  intros N. unfold without_key. induction rows as [|a rows IH]; cbn; [reflexivity|].
  destruct (String.eqb_spec (TaskModel.id a) k) as [E | Nk]; cbn.
  - destruct (String.eqb_spec (TaskModel.id a) k') as [E' | N']; cbn;
      [congruence | exact IH].
  - now rewrite IH.
Qed.

(** X6. Get on a key that no stored row bears answers 404 with the message
    naming the key, and leaves the world as it was. *)
Theorem get_missing_404 (k : string) (w : World) :
  outage w = None ->
  db.has_key k (tasks w) = false ->
  GET_tasks_id k w = (inl (HTTPException 404 (detail_not_found k)), w).
Proof.
  intros Ho Hk. now rewrite GET_tasks_id_eq, Ho, (filter_key_none k _ Hk).
Qed.

(** X7. Delete on a key that no stored row bears answers 404 with the
    message naming the key, and leaves the world as it was. *)
Theorem delete_missing_404 (k : string) (w : World) :
  outage w = None ->
  db.has_key k (tasks w) = false ->
  DELETE_tasks_id k w = (inl (HTTPException 404 (detail_not_found k)), w).
Proof. intros Ho Hk. now rewrite DELETE_tasks_id_eq, Ho, Hk. Qed.

(** X8. Delete on a stored key succeeds and removes the rows under that key
    and no other: the remaining rows are exactly the others, and nothing else
    of the world changes. *)
Theorem delete_removes_key (k : string) (w : World) :
  outage w = None ->
  db.has_key k (tasks w) = true ->
  DELETE_tasks_id k w = (inr tt, with_tasks (without_key k (tasks w)) w) /\
  (forall r, In r (without_key k (tasks w))
             <-> In r (tasks w) /\ TaskModel.id r <> k).
Proof.
  intros Ho Hk. split; [now rewrite DELETE_tasks_id_eq, Ho, Hk|].
  intros r. unfold without_key. rewrite filter_In, negb_true_iff.
  destruct (String.eqb_spec (TaskModel.id r) k); intuition congruence.
Qed.

(** X9. After a successful delete, get on the same key answers 404 and so
    does a second delete. *)
Theorem delete_then_get_404 (k : string) (w w' : World) :
  DELETE_tasks_id k w = (inr tt, w') ->
  GET_tasks_id k w' = (inl (HTTPException 404 (detail_not_found k)), w') /\
  DELETE_tasks_id k w' = (inl (HTTPException 404 (detail_not_found k)), w').
Proof.
  rewrite DELETE_tasks_id_eq. destruct (outage w) eqn:Ho; [discriminate|].
  destruct (db.has_key k (tasks w)) eqn:Hk; [|discriminate].
  intros E. inversion E; subst w'; clear E.
  assert (Ho' : outage (with_tasks (without_key k (tasks w)) w) = None)
    by (destruct w; exact Ho).
  assert (Hk' : db.has_key k (tasks (with_tasks (without_key k (tasks w)) w)) = false).
  { destruct w; cbn [tasks with_tasks]. now rewrite has_key_without, String.eqb_refl. }
  split; [now apply get_missing_404 | now apply delete_missing_404].
Qed.

(** X10. A delete request does not disturb the other keys: get on any other
    key answers after the delete what it answered before. *)
Theorem delete_keeps_other_keys (k k' : string) (w : World) :
  k' <> k ->
  fst (GET_tasks_id k' (snd (DELETE_tasks_id k w))) = fst (GET_tasks_id k' w).
Proof.
  intros N. rewrite DELETE_tasks_id_eq.
  destruct (outage w) eqn:Ho; [reflexivity|].
  destruct (db.has_key k (tasks w)); [|reflexivity].
  cbn [snd]. rewrite !GET_tasks_id_eq. cbn [fst].
  destruct w as [rows o cmp c ent n]. cbn [tasks outage with_tasks] in *. subst o.
  now rewrite (filter_key_without k k' rows N).
Qed.

(* ------------------------------------------------------------------------- *)
(** ** Storage failures, update and the counts *)

Lemma GET_tasks_outage st pr asg (w : World) (e : string) :
  outage w = Some e -> GET_tasks st pr asg w = (inl (SQLAlchemyError e), w).
Proof.
  intros Ho. destruct w as [rows o cmp c ent n]. cbn in Ho. subst o.
  unfold GET_tasks, get_tasks. run. reflexivity.
Qed.

(** X11. While the database is away, list, get and delete let the error of
    the session escape, which the client sees as a 500, and leave the world
    as it was. *)
Theorem storage_failure_500 (w : World) (e : string) :
  outage w = Some e ->
  (forall st pr asg, GET_tasks st pr asg w = (inl (SQLAlchemyError e), w)) /\
  (forall k, GET_tasks_id k w = (inl (SQLAlchemyError e), w)) /\
  (forall k, DELETE_tasks_id k w = (inl (SQLAlchemyError e), w)) /\
  status_code (SQLAlchemyError e) = 500%Z.
Proof.
  intros Ho. split; [|split; [|split]].
  - intros st pr asg. now apply GET_tasks_outage.
  - intros k. now rewrite GET_tasks_id_eq, Ho.
  - intros k. now rewrite DELETE_tasks_id_eq, Ho.
  - reflexivity.
Qed.

(** The answer of update, case by case. *)
Lemma PUT_tasks_id_eq (int_of_path : string -> option Z) (k : string)
    (b : Body.t) (w : World) :
  PUT_tasks_id int_of_path k b w
  = (inl match int_of_path k, TaskUpdate.validate b with
         | None, _ => RequestValidationError "task_id"
         | Some _, inl e => e
         | Some z, inr _ =>
             match outage w with
             | Some e => SQLAlchemyError e
             | None =>
                 match text_eq_int w with
                 | None => SQLAlchemyError "operator does not exist"
                 | Some cmp =>
                     if Query.int64 z then
                       match List.filter (fun r => cmp (TaskModel.id r) z && true)
                                         (tasks w) with
                       | [] => HTTPException 404 (detail_not_found (Str.of_int z))
                       | _ :: _ =>
                           TypeError "argument of type 'TaskModel' is not iterable"
                       end
                     else
                       OverflowError "Python int too large to convert to SQLite INTEGER"
                 end
             end
         end, w).
Proof.
  unfold PUT_tasks_id.
  destruct (int_of_path k) as [z|]; [|reflexivity].
  destruct (TaskUpdate.validate b) as [e|u]; [reflexivity|].
  destruct w as [rows o cmp c ent n]. unfold update_task. run.
  destruct o; [reflexivity|]. cbn [Query.where_ Query.holds text_eq_int].
  destruct cmp as [f|]; [|reflexivity].
  destruct (Query.int64 z); [|reflexivity].
  destruct (List.filter _ rows); reflexivity.
Qed.

(** X12. Update on a path that reads as an integer, with a valid body, on a
    database that answers and compares the key with an integer: when the
    integer fits in 64 bits and no stored key compares equal to it, the
    answer is 404 with the message naming the integer; when the integer does
    not fit in 64 bits, the driver's [OverflowError] escapes the handler
    (500). The world is left as it was. *)
Theorem update_missing_404 (int_of_path : string -> option Z) (k : string)
    (z : Z) (b : Body.t) (u : TaskUpdate.t) (cmp : string -> Z -> bool) (w : World) :
  int_of_path k = Some z ->
  TaskUpdate.validate b = inr u ->
  outage w = None ->
  text_eq_int w = Some cmp ->
  ((- 2 ^ 63 <= z < 2 ^ 63)%Z ->
   (forall r, In r (tasks w) -> cmp (TaskModel.id r) z = false) ->
   PUT_tasks_id int_of_path k b w
   = (inl (HTTPException 404 (detail_not_found (Str.of_int z))), w)) /\
  ((z < - 2 ^ 63 \/ 2 ^ 63 <= z)%Z ->
   exists e, PUT_tasks_id int_of_path k b w = (inl e, w) /\
             status_code e = 500%Z /\
             e = OverflowError "Python int too large to convert to SQLite INTEGER").
Proof.
  intros Hp Hv Ho Hc. rewrite PUT_tasks_id_eq, Hp, Hv, Ho, Hc. unfold Query.int64.
  split.
  - intros Hz Hn.
    destruct (Z.leb_spec (- 2 ^ 63) z) as [_|]; [|lia].
    destruct (Z.ltb_spec z (2 ^ 63)) as [_|]; [|lia]. cbn [andb].
    replace (List.filter _ (tasks w)) with (@nil TaskModel.t); [reflexivity|].
    symmetry. induction (tasks w) as [|a rows IH]; [reflexivity|].
    cbn. rewrite (Hn a) by now left. cbn. apply IH. intros r Hr. apply Hn. now right.
  - intros Hz. eexists. split; [|split]; [| |reflexivity].
    + destruct (Z.leb_spec (- 2 ^ 63) z), (Z.ltb_spec z (2 ^ 63));
        cbn [andb]; try reflexivity; lia.
    + reflexivity.
Qed.

(** X13. Update answers nothing but 404, 422 and 500, and it answers 422
    exactly when the path does not read as an integer or the body breaks a
    declared constraint of [TaskUpdate]. *)
Theorem update_answer_codes (int_of_path : string -> option Z) (k : string)
    (b : Body.t) (w : World) :
  exists e,
    PUT_tasks_id int_of_path k b w = (inl e, w) /\
    (status_code e = 404%Z \/ status_code e = 422%Z \/ status_code e = 500%Z) /\
    (status_code e = 422%Z
     <-> int_of_path k = None \/ exists e', TaskUpdate.validate b = inl e').
Proof.
  rewrite PUT_tasks_id_eq. eexists. split; [reflexivity|].
  destruct (int_of_path k) as [z|].
  2:{ cbn. split; [auto|]. split; auto. }
  destruct (TaskUpdate.validate b) as [e'|u] eqn:Ev.
  { pose proof (update_validate_422 b e' Ev) as H. split; [auto|].
    split; [intros _; right; eauto | auto]. }
  assert (R : forall e, status_code e = 404%Z \/ status_code e = 500%Z ->
              (status_code e = 404%Z \/ status_code e = 422%Z \/ status_code e = 500%Z) /\
              (status_code e = 422%Z <-> Some z = None \/ exists e', @inr Exception _ u = inl e')).
  { intros e [H | H]; rewrite H; (split; [auto|]);
      (split; [discriminate | intros [D | (e' & D)]; discriminate]). }
  destruct (outage w); [apply R; now right|].
  destruct (text_eq_int w); [|apply R; now right].
  destruct (Query.int64 z); [|apply R; now right].
  destruct (List.filter _ (tasks w)); apply R; [now left | now right].
Qed.

(** X14. On a database that answers, with stamped rows, the count health
    reports is the number of tasks list returns without a filter. *)
Theorem health_count_is_list_length (w : World) :
  outage w = None ->
  forallb stamped (tasks w) = true ->
  exists h xs,
    GET_health w = (inr h, w) /\
    GET_tasks None None None w = (inr xs, w) /\
    Health.tasks_count h = Some (List.length xs).
Proof.
  intros Ho Hs. rewrite GET_health_eq, (GET_tasks_eq None None None w Ho), Ho.
  cbn [effective]. rewrite filter_all by reflexivity.
  destruct (list_from_attributes_stamped (tasks w) Hs) as (xs & -> & E).
  eexists. exists xs. repeat split. cbn. now rewrite <- E, length_map.
Qed.

(** X15. The reading requests (root, health, list and get) leave the
    world as it was, whatever they answer. *)
Theorem reading_requests_change_nothing (w : World) :
  snd (GET_root w) = w /\
  snd (GET_health w) = w /\
  (forall st pr asg, snd (GET_tasks st pr asg w) = w) /\
  (forall k, snd (GET_tasks_id k w) = w).
Proof.
  split; [now destruct w|]. split; [now rewrite GET_health_eq|].
  split; [intros; apply GET_tasks_frame | intros; apply GET_tasks_id_frame].
Qed.

(* ------------------------------------------------------------------------- *)
(** ** What every run keeps *)

(** A property of tables that holds of the empty table, survives the row a
    create appends and survives the removal of rows holds in every run. *)
Lemma Run_table (int_of_path : string -> option Z) (P : list TaskModel.t -> Prop) :
  P [] ->
  (forall b d w,
      P (tasks w) ->
      TaskCreate.validate b = inr d ->
      Str.blank (TaskCreate.title d) = false ->
      db.has_key (next_id w) (tasks w) = false ->
      P (tasks w ++ [Task.row (created_task d w)])) ->
  (forall rows q, P rows -> P (List.filter q rows)) ->
  forall w issued, Run int_of_path w issued -> P (tasks w).
Proof.
  intros P0 Pc Pf w issued HR.
  induction HR as [w Hw | w issued req HR IH | w issued o c HR IH].
  - now rewrite Hw.
  - destruct req as [| st pr asg | k | b | k b | k]; cbn [serve].
    + now rewrite GET_health_eq.
    + now rewrite GET_tasks_frame.
    + now rewrite GET_tasks_id_frame.
    + pose proof (POST_tasks_inv b w) as H.
      destruct (POST_tasks b w) as [[e|x] w']; cbn [snd].
      * destruct H as (-> & _). exact IH.
      * destruct H as (d & E & Hb & _ & Hk & -> & ->). cbn [created_world tasks].
        now apply (Pc b).
    + destruct (PUT_tasks_id_fails int_of_path k b w) as (e & ->). exact IH.
    + destruct (DELETE_tasks_id_frame k w) as (p & ->).
      destruct w; cbn [with_tasks tasks] in *. now apply Pf.
  - exact IH.
Qed.

Lemma NoDup_map_filter {A B} (f : A -> B) (q : A -> bool) (l : list A) :
  NoDup (map f l) -> NoDup (map f (List.filter q l)).
Proof.
  induction l as [|a l IH]; cbn; [trivial|].
  intros ND. inversion ND as [|? ? Hn ND']; subst.
  destruct (q a); cbn; [|now apply IH].
  constructor; [|now apply IH].
  intros Hin. apply Hn. apply in_map_iff in Hin. destruct Hin as (x & E & Hx).
  apply filter_In in Hx. rewrite <- E. apply in_map, Hx.
Qed.

Lemma Run_keys (int_of_path : string -> option Z) (w : World) (issued : list Task.t) :
  Run int_of_path w issued -> NoDup (map TaskModel.id (tasks w)).
Proof.
  apply (Run_table int_of_path (fun rows => NoDup (map TaskModel.id rows))).
  - constructor.
  - intros b d w0 ND _ _ Hk. rewrite map_app. cbn [map].
    apply NoDup_app.
    + exact ND.
    + constructor; [intros [] | constructor].
    + intros a Ha [<- | []].
      apply in_map_iff in Ha. destruct Ha as (r & E & Hr).
      assert (K : db.has_key (next_id w0) (tasks w0) = true)
        by (apply has_key_In; exists r; auto).
      congruence.
  - intros rows q. apply NoDup_map_filter.
Qed.

Lemma Run_stamped (int_of_path : string -> option Z) (w : World) (issued : list Task.t) :
  Run int_of_path w issued -> forallb stamped (tasks w) = true.
Proof.
  intros HR. destruct (Run_inv int_of_path w issued HR) as (I1 & _).
  apply forallb_forall. intros r Hr. destruct (I1 r Hr) as (x & _ & ->). reflexivity.
Qed.

(** X16. In every run the stored keys are pairwise distinct: a key names at
    most one stored task. *)
Theorem run_keys_unique (int_of_path : string -> option Z) (w : World)
    (issued : list Task.t) :
  Run int_of_path w issued ->
  NoDup (map TaskModel.id (tasks w)) /\
  (forall r r', In r (tasks w) -> In r' (tasks w) ->
                TaskModel.id r = TaskModel.id r' -> r = r').
Proof.
  intros HR. pose proof (Run_keys _ _ _ HR) as ND. split; [exact ND|].
  intros r r' Hr Hr' E.
  pose proof (filter_key_unique (tasks w) r ND Hr) as U.
  pose proof (filter_key_unique (tasks w) r' ND Hr') as U'.
  rewrite E, U' in U. now inversion U.
Qed.

(** X17. In every run every stored task respects the declared lengths of
    [TaskCreate]: a title of 1 to 200 characters, a description of at most
    1000 and an assignee of at most 100. *)
Theorem run_rows_within_bounds (int_of_path : string -> option Z) (w : World)
    (issued : list Task.t) (r : TaskModel.t) :
  Run int_of_path w issued -> In r (tasks w) -> within_bounds r.
Proof.
  intros HR. revert r.
  apply (Run_table int_of_path (fun rows => forall r, In r rows -> within_bounds r))
    with (w := w) (issued := issued); trivial.
  - intros r [].
  - intros b d w0 IH E _ _ r Hr. apply in_app_or in Hr.
    destruct Hr as [Hr | [<- | []]]; [now apply IH|].
    destruct (validate_inv b d E) as (_ & Hl & _ & _ & _ & _ & _ & Hde & Hasg).
    unfold within_bounds. cbn. repeat split; auto; lia.
  - intros rows q IH r Hr. apply filter_In in Hr. apply IH, Hr.
Qed.

(** X18. In every run no request has changed a stored task since its
    creation: each stored row is, field by field, a task that an earlier
    create returned. *)
Theorem run_rows_as_created (int_of_path : string -> option Z) (w : World)
    (issued : list Task.t) (r : TaskModel.t) :
  Run int_of_path w issued -> In r (tasks w) ->
  exists x, In x issued /\ Task.from_attributes r = inr x.
Proof.
  intros HR Hr. destruct (Run_inv int_of_path w issued HR) as (I1 & _).
  destruct (I1 r Hr) as (x & Hx & ->). exists x. split; [exact Hx|].
  apply from_attributes_row.
Qed.

Lemma run_get_row (int_of_path : string -> option Z) (w : World)
    (issued : list Task.t) (r : TaskModel.t) :
  Run int_of_path w issued -> outage w = None -> In r (tasks w) ->
  exists x, GET_tasks_id (TaskModel.id r) w = (inr x, w) /\ Task.row x = r.
Proof.
  intros HR Ho Hr. rewrite GET_tasks_id_eq, Ho.
  rewrite (filter_key_unique (tasks w) r (Run_keys _ _ _ HR) Hr).
  destruct (Run_inv int_of_path w issued HR) as (I1 & _).
  destruct (I1 r Hr) as (x & _ & ->). exists x. now rewrite from_attributes_row.
Qed.

(** X19. In every run, on a database that answers, get on the key of a
    stored task returns that very task. *)
Theorem run_get_stored (int_of_path : string -> option Z) (w : World)
    (issued : list Task.t) (r : TaskModel.t) :
  Run int_of_path w issued -> outage w = None -> In r (tasks w) ->
  exists x,
    GET_tasks_id (TaskModel.id r) w = (inr x, w) /\
    Task.row x = r /\ Task.id x = TaskModel.id r /\ In x issued.
Proof.
  intros HR Ho Hr.
  destruct (run_get_row int_of_path w issued r HR Ho Hr) as (x & G & E).
  exists x. split; [exact G|]. split; [exact E|]. split; [now rewrite <- E|].
  destruct (Run_inv int_of_path w issued HR) as (I1 & _).
  destruct (I1 r Hr) as (y & Hy & Ey).
  assert (F : Task.from_attributes (Task.row x) = Task.from_attributes (Task.row y))
    by now rewrite E, Ey.
  rewrite !from_attributes_row in F. now inversion F.
Qed.

Lemma filter_all_In {A} (p : A -> bool) (l : list A) :
  (forall a, In a l -> p a = true) -> List.filter p l = l.
Proof.
  induction l as [|a l IH]; cbn; [reflexivity|]. intros H.
  rewrite (H a) by now left. f_equal. apply IH. intros b Hb. apply H. now right.
Qed.

Lemma without_key_length (rows : list TaskModel.t) (r : TaskModel.t) :
  NoDup (map TaskModel.id rows) -> In r rows ->
  S (List.length (without_key (TaskModel.id r) rows)) = List.length rows.
Proof.
  unfold without_key. induction rows as [|a rows IH]; cbn; [intros _ []|].
  intros ND Hin. inversion ND as [|? ? Hn ND']; subst.
  destruct (String.eqb_spec (TaskModel.id a) (TaskModel.id r)) as [E | N]; cbn.
  - f_equal. rewrite filter_all_In; [reflexivity|].
    intros b Hb. apply negb_true_iff.
    destruct (String.eqb_spec (TaskModel.id b) (TaskModel.id r)) as [E' | _];
      [|reflexivity].
    destruct Hn. rewrite E, <- E'. now apply in_map.
  - destruct Hin as [-> | Hin]; [congruence|]. f_equal. now apply IH.
Qed.

(** X20. In every run, on a database that answers, delete on the key of a
    stored task succeeds, removes that task and no other, and brings the
    number of stored tasks down by one. *)
Theorem run_delete_stored (int_of_path : string -> option Z) (w : World)
    (issued : list Task.t) (r : TaskModel.t) :
  Run int_of_path w issued -> outage w = None -> In r (tasks w) ->
  exists w',
    DELETE_tasks_id (TaskModel.id r) w = (inr tt, w') /\
    S (List.length (tasks w')) = List.length (tasks w) /\
    ~ In r (tasks w') /\
    (forall a, In a (tasks w) -> a <> r -> In a (tasks w')).
Proof.
  intros HR Ho Hr.
  pose proof (Run_keys _ _ _ HR) as ND.
  assert (Hk : db.has_key (TaskModel.id r) (tasks w) = true)
    by (apply has_key_In; exists r; auto).
  exists (with_tasks (without_key (TaskModel.id r) (tasks w)) w).
  rewrite DELETE_tasks_id_eq, Ho, Hk.
  destruct w as [rows o cmp c ent n]. cbn [tasks with_tasks] in *.
  split; [reflexivity|]. split; [now apply without_key_length|].
  unfold without_key. split.
  - intros Hin. apply filter_In in Hin. destruct Hin as [_ Hin].
    now rewrite String.eqb_refl in Hin.
  - intros a Ha Na. apply filter_In. split; [exact Ha|].
    apply negb_true_iff.
    destruct (String.eqb_spec (TaskModel.id a) (TaskModel.id r)) as [E | _];
      [|reflexivity].
    destruct Na.
    pose proof (filter_key_unique rows r ND Hr) as U.
    assert (Hin : In a (List.filter
                          (fun x => String.eqb (TaskModel.id x) (TaskModel.id r) && true)
                          rows)).
    { apply filter_In. split; [exact Ha|]. rewrite E, String.eqb_refl. reflexivity. }
    rewrite U in Hin. destruct Hin as [<- | []]. reflexivity.
Qed.

(** X21. In every run, every task that list returns can be fetched by get on
    its id, and get returns the same task, field by field. *)
Theorem run_list_then_get (int_of_path : string -> option Z) (w : World)
    (issued : list Task.t) st pr asg (xs : list Task.t) (x : Task.t) :
  Run int_of_path w issued ->
  GET_tasks st pr asg w = (inr xs, w) ->
  In x xs ->
  GET_tasks_id (Task.id x) w = (inr x, w).
Proof.
  intros HR E Hx.
  destruct (outage w) as [e|] eqn:Ho.
  { rewrite (GET_tasks_outage st pr asg w e Ho) in E. discriminate. }
  rewrite (GET_tasks_eq st pr asg w Ho) in E.
  destruct (list_from_attributes_stamped
              (List.filter (matches_supplied st pr (effective asg)) (tasks w)))
    as (ys & Ey & Hy); [apply forallb_filter, (Run_stamped _ _ _ HR)|].
  rewrite Ey in E. inversion E; subst ys; clear E.
  assert (Hr : In (Task.row x) (tasks w)).
  { apply (in_map Task.row) in Hx. rewrite Hy in Hx. apply filter_In in Hx. apply Hx. }
  destruct (run_get_row int_of_path w issued (Task.row x) HR Ho Hr) as (y & G & Ey').
  change (TaskModel.id (Task.row x)) with (Task.id x) in G. rewrite G.
  f_equal. f_equal.
  assert (F : Task.from_attributes (Task.row y) = Task.from_attributes (Task.row x))
    by now rewrite Ey'.
  rewrite !from_attributes_row in F. now inversion F.
Qed.

(* ------------------------------------------------------------------------- *)
(** ** The configured origins *)

Example cors_origins_unset :
  cors_origins None = ["http://localhost:5173"; "http://localhost:3000"].
Proof. reflexivity. Qed.

Example cors_origins_spaced :
  cors_origins (Some " https://a.example , https://b.example,")
  = ["https://a.example"; "https://b.example"; ""].
Proof. reflexivity. Qed.

Lemma split_cons (sep c : ascii) (s : string) :
  exists piece pieces, split sep s = piece :: pieces.
Proof.
  destruct s as [|d s]; cbn; [eauto|].
  destruct (Ascii.eqb d sep); [eauto|].
  destruct (split sep s); eauto.
Qed.

Lemma split_length (sep : ascii) (s : string) :
  List.length (split sep s) = S (count_char sep s).
Proof.
  induction s as [|c s IH]; cbn; [reflexivity|].
  destruct (Ascii.eqb c sep); cbn; [now rewrite IH|].
  destruct (split sep s) as [|piece pieces]; cbn in *; [discriminate | exact IH].
Qed.

Lemma split_no_sep (sep : ascii) (s : string) (piece : string) :
  In piece (split sep s) -> Str.contains sep piece = false.
Proof.
  revert piece. induction s as [|c s IH]; cbn; intros piece.
  - intros [<- | []]. reflexivity.
  - destruct (Ascii.eqb_spec c sep) as [E | N].
    + intros [<- | H]; [reflexivity | now apply IH].
    + destruct (split sep s) as [|p ps].
      * intros [<- | []]. cbn. rewrite orb_false_r.
        destruct (Ascii.eqb_spec sep c); [congruence | reflexivity].
      * intros [<- | H].
        -- cbn. rewrite (IH p) by now left. rewrite orb_false_r.
           destruct (Ascii.eqb_spec sep c); [congruence | reflexivity].
        -- apply IH. now right.
Qed.

Lemma join_more (sep a b : string) (l : list string) :
  join sep (a :: b :: l) = (a ++ sep ++ join sep (b :: l))%string.
Proof. reflexivity. Qed.

Lemma join_split (sep : ascii) (s : string) :
  join (String sep EmptyString) (split sep s) = s.
Proof.
  induction s as [|c s IH]; cbn [split]; [reflexivity|].
  destruct (split_cons sep sep s) as (p & ps & E). rewrite E in *.
  destruct (Ascii.eqb_spec c sep) as [-> | N].
  - rewrite join_more, IH. reflexivity.
  - destruct ps as [|q qs].
    + cbn in *. now rewrite IH.
    + rewrite join_more in *. rewrite <- IH. reflexivity.
Qed.

Lemma split_spaceless (sep : ascii) (s : string) (piece : string) :
  spaceless s = true -> In piece (split sep s) -> spaceless piece = true.
Proof.
  revert piece. induction s as [|c s IH]; cbn; intros piece.
  - intros _ [<- | []]. reflexivity.
  - intros H. apply andb_true_iff in H. destruct H as [Hc Hs].
    destruct (Ascii.eqb c sep).
    + intros [<- | H]; [reflexivity | now apply IH].
    + destruct (split sep s) as [|p ps].
      * intros [<- | []]. cbn. now rewrite Hc.
      * intros [<- | H].
        -- cbn. rewrite Hc. apply IH; [exact Hs | now left].
        -- apply IH; [exact Hs | now right].
Qed.

Lemma rstrip_spaceless (s : string) : spaceless s = true -> Str.rstrip s = s.
Proof.
  induction s as [|c s IH]; cbn; [reflexivity|].
  intros H. apply andb_true_iff in H. destruct H as [Hc Hs].
  rewrite (IH Hs). apply negb_true_iff in Hc. rewrite Hc. now destruct s.
Qed.

Lemma strip_spaceless (s : string) : spaceless s = true -> Str.strip s = s.
Proof.
  intros H. unfold Str.strip.
  replace (Str.lstrip s) with s; [now apply rstrip_spaceless|].
  destruct s as [|c s]; [reflexivity|]. cbn in *.
  apply andb_true_iff in H. destruct H as [Hc _].
  apply negb_true_iff in Hc. now rewrite Hc.
Qed.

Lemma lstrip_contains (c : ascii) (s : string) :
  Str.contains c (Str.lstrip s) = true -> Str.contains c s = true.
Proof.
  induction s as [|d s IH]; cbn; [trivial|].
  destruct (Str.isspace d); [|trivial].
  intros H. rewrite (IH H). apply orb_true_r.
Qed.

Lemma rstrip_contains (c : ascii) (s : string) :
  Str.contains c (Str.rstrip s) = true -> Str.contains c s = true.
Proof.
  induction s as [|d s IH]; cbn [Str.rstrip]; [trivial|].
  destruct (Str.rstrip s) as [|e r] eqn:E.
  - destruct (Str.isspace d); cbn; [discriminate|].
    rewrite orb_false_r. intros ->. reflexivity.
  - cbn [Str.contains]. intros H. apply orb_true_iff in H.
    destruct H as [-> | H]; [reflexivity|]. rewrite (IH H). apply orb_true_r.
Qed.

Lemma rstrip_last (s : string) (c : ascii) :
  last_char (Str.rstrip s) = Some c -> Str.isspace c = false.
Proof.
  induction s as [|d s IH]; cbn [Str.rstrip]; [discriminate|].
  destruct (Str.rstrip s) as [|e r] eqn:E.
  - destruct (Str.isspace d) eqn:Hd; cbn; [discriminate|].
    intros H. inversion H; subst. exact Hd.
  - change (last_char (String d (String e r))) with (last_char (String e r)).
    exact IH.
Qed.

Lemma strip_first (s : string) (c : ascii) :
  first_char (Str.strip s) = Some c -> Str.isspace c = false.
Proof.
  unfold Str.strip. destruct (Str.blank s) eqn:Hb.
  - rewrite (lstrip_blank s Hb). discriminate.
  - destruct (lstrip_not_blank s Hb) as (d & r & -> & Hd).
    cbn [Str.rstrip]. destruct (Str.rstrip r); [rewrite Hd|]; cbn;
      intros H; inversion H; subst; exact Hd.
Qed.

(** X22. The list of configured origins has one entry more than the
    variable has commas: it is never empty, and an empty variable gives the
    one origin [""]. *)
Theorem cors_origins_count (CORS_ORIGINS : option string) :
  List.length (cors_origins CORS_ORIGINS)
  = S (count_char "," (cors_origins_str CORS_ORIGINS)) /\
  cors_origins CORS_ORIGINS <> [] /\
  cors_origins (Some EmptyString) = [EmptyString].
Proof.
  unfold cors_origins. rewrite length_map, split_length.
  split; [reflexivity|]. split; [|reflexivity].
  destruct (split_cons "," "," (cors_origins_str CORS_ORIGINS)) as (p & ps & ->).
  discriminate.
Qed.

(** X23. No configured origin holds a comma, and none begins or ends with
    whitespace. *)
Theorem cors_origins_trimmed (CORS_ORIGINS : option string) (origin : string) :
  In origin (cors_origins CORS_ORIGINS) ->
  Str.contains "," origin = false /\
  (forall c, first_char origin = Some c -> Str.isspace c = false) /\
  (forall c, last_char origin = Some c -> Str.isspace c = false).
Proof.
  unfold cors_origins. intros H. apply in_map_iff in H.
  destruct H as (piece & <- & Hp). split; [|split].
  - destruct (Str.contains "," (Str.strip piece)) eqn:E; [|reflexivity].
    unfold Str.strip in E. apply rstrip_contains, lstrip_contains in E.
    now rewrite (split_no_sep _ _ _ Hp) in E.
  - apply strip_first.
  - unfold Str.strip. apply rstrip_last.
Qed.

(** X24. When the variable holds no whitespace, the configured origins are
    its pieces as written: joined with commas they give the variable back. *)
Theorem cors_origins_join (CORS_ORIGINS : option string) :
  spaceless (cors_origins_str CORS_ORIGINS) = true ->
  join "," (cors_origins CORS_ORIGINS) = cors_origins_str CORS_ORIGINS.
Proof.
  intros H. unfold cors_origins.
  replace (map Str.strip (split "," (cors_origins_str CORS_ORIGINS)))
    with (split "," (cors_origins_str CORS_ORIGINS)); [apply join_split|].
  symmetry. rewrite <- (map_id (split "," (cors_origins_str CORS_ORIGINS))) at 2.
  apply map_ext_in. intros piece Hp. apply strip_spaceless.
  now apply (split_spaceless "," (cors_origins_str CORS_ORIGINS)).
Qed.

(* ------------------------------------------------------------------------- *)
(** ** The shape of the identifiers *)

Lemma UUID_bit (x k : N) :
  N.testbit (uuid.UUID x) k
  = ((N.testbit x k && negb (N.testbit (N.shiftl 0xc000 48) k)
      || N.testbit (N.shiftl 0x8000 48) k)
     && negb (N.testbit (N.shiftl 0xf000 64) k))
    || N.testbit (N.shiftl 4 76) k.
Proof.
  unfold uuid.UUID. now rewrite N.lor_spec, N.ldiff_spec, N.lor_spec, N.ldiff_spec.
Qed.

Lemma UUID_fixed_bits (x : N) :
  N.testbit (uuid.UUID x) 76 = false /\ N.testbit (uuid.UUID x) 77 = false /\
  N.testbit (uuid.UUID x) 78 = true /\ N.testbit (uuid.UUID x) 79 = false /\
  N.testbit (uuid.UUID x) 62 = false /\ N.testbit (uuid.UUID x) 63 = true.
Proof.
  rewrite !UUID_bit.
  repeat split;
    match goal with
    | |- context [N.testbit x ?k] => destruct (N.testbit x k)
    end; vm_compute; reflexivity.
Qed.

Lemma nibble_bit (u s i : N) :
  (i < 4)%N -> N.testbit ((u / 2 ^ s) mod 2 ^ 4) i = N.testbit u (i + s).
Proof.
  intros Hi. rewrite N.mod_pow2_bits_low by exact Hi. apply N.div_pow2_bits.
Qed.

Lemma UUID_version_digit (x : N) : ((uuid.UUID x / 2 ^ 76) mod 2 ^ 4 = 4)%N.
Proof.
  destruct (UUID_fixed_bits x) as (B0 & B1 & B2 & B3 & _).
  apply N.bits_inj. intros i.
  destruct (N.lt_ge_cases i 4) as [L | G].
  - rewrite nibble_bit by exact L.
    assert (C : (i = 0 \/ i = 1 \/ i = 2 \/ i = 3)%N) by lia.
    destruct C as [-> | [-> | [-> | ->]]].
    + change (0 + 76)%N with 76%N. now rewrite B0.
    + change (1 + 76)%N with 77%N. now rewrite B1.
    + change (2 + 76)%N with 78%N. now rewrite B2.
    + change (3 + 76)%N with 79%N. now rewrite B3.
  - rewrite N.mod_pow2_bits_high by exact G. symmetry.
    apply N.bits_above_log2. change (N.log2 4) with 2%N. lia.
Qed.

Lemma UUID_variant_digit (x : N) :
  In (uuid.hexdigit ((uuid.UUID x / 2 ^ 60) mod 2 ^ 4)) ["8"; "9"; "a"; "b"]%char.
Proof.
  destruct (UUID_fixed_bits x) as (_ & _ & _ & _ & B2 & B3).
  set (d := ((uuid.UUID x / 2 ^ 60) mod 2 ^ 4)%N).
  assert (H2 : N.testbit d 2 = false).
  { unfold d. rewrite nibble_bit by reflexivity. exact B2. }
  assert (H3 : N.testbit d 3 = true).
  { unfold d. rewrite nibble_bit by reflexivity. exact B3. }
  assert (Hd : (d < 16)%N) by (apply N.mod_lt; discriminate).
  clearbody d.
  assert (E : d = N.of_nat (N.to_nat d)) by lia.
  assert (Hm : (N.to_nat d < 16)%nat) by lia.
  revert E Hm. generalize (N.to_nat d). intros m -> Hm.
  do 16 (destruct m as [|m];
         [vm_compute in H2, H3; try discriminate; vm_compute; tauto|]).
  lia.
Qed.

Lemma uuid4_text_str (r : N) : uuid4_text (uuid.str (uuid.uuid4 r)).
Proof.
  unfold uuid4_text, uuid.str, char_at.
  cbn [uuid.format_x substring String.append String.length String.get].
  repeat split.
  - unfold uuid.uuid4. change (16 ^ N.of_nat 19)%N with (2 ^ 76)%N.
    change 16%N with (2 ^ 4)%N at 1. now rewrite UUID_version_digit.
  - eexists. split; [reflexivity|].
    unfold uuid.uuid4. change (16 ^ N.of_nat 15)%N with (2 ^ 60)%N.
    change 16%N with (2 ^ 4)%N at 1. apply UUID_variant_digit.
Qed.

(** X25. The id of a task that create returns is the text of a version 4
    UUID: 36 characters, hyphens at the positions 8, 13, 18 and 23, the
    version digit 4 at position 14 and a variant digit among 8, 9, a and b
    at position 19; it is therefore never empty and never reads as an
    integer with the sign in front. *)
Theorem created_id_is_uuid4_text (b : Body.t) (w : World) (x : Task.t) (w' : World) :
  POST_tasks b w = (inr x, w') ->
  uuid4_text (Task.id x) /\ sign_leading (Task.id x) = false.
Proof.
  intros E. pose proof (POST_tasks_inv b w) as H. rewrite E in H.
  destruct H as (d & _ & _ & _ & _ & -> & _). cbn [created_task Task.id].
  unfold next_id. split; [apply uuid4_text_str | apply str_sign_leading].
Qed.

(** X26. In every run every stored key is the text of a version 4 UUID. *)
Theorem run_keys_are_uuid4_text (int_of_path : string -> option Z) (w : World)
    (issued : list Task.t) (r : TaskModel.t) :
  Run int_of_path w issued -> In r (tasks w) -> uuid4_text (TaskModel.id r).
Proof.
  intros HR Hr. destruct (Run_inv int_of_path w issued HR) as (I1 & I2 & _).
  destruct (I1 r Hr) as (x & Hx & ->). destruct (I2 x Hx) as (j & _ & E).
  change (TaskModel.id (Task.row x)) with (Task.id x). rewrite E.
  apply uuid4_text_str.
Qed.

(* ------------------------------------------------------------------------- *)
(** ** Rows across one request *)

(** X27. No request invents or alters a row: every row stored after a
    request was stored before it, or is the row of the task that this
    request, a successful create, returned. *)
Theorem request_rows (int_of_path : string -> option Z) (req : Request)
    (w : World) (r : TaskModel.t) :
  In r (tasks (serve int_of_path req w)) ->
  In r (tasks w) \/ exists x, issues req w = [x] /\ r = Task.row x.
Proof.
  destruct req as [| st pr asg | k | b | k b | k]; cbn [serve issues].
  - rewrite GET_health_eq. auto.
  - rewrite GET_tasks_frame. auto.
  - rewrite GET_tasks_id_frame. auto.
  - pose proof (POST_tasks_inv b w) as H.
    destruct (POST_tasks b w) as [[e|x] w']; cbn [fst snd].
    + destruct H as (-> & _). auto.
    + destruct H as (d & _ & _ & _ & _ & _ & ->). cbn [created_world tasks].
      intros Hr. apply in_app_or in Hr. destruct Hr as [Hr | [<- | []]]; eauto.
  - destruct (PUT_tasks_id_fails int_of_path k b w) as (e & ->). auto.
  - destruct (DELETE_tasks_id_frame k w) as (p & ->).
    destruct w; cbn [with_tasks tasks]. intros Hr. apply filter_In in Hr.
    left. apply Hr.
Qed.

(* ------------------------------------------------------------------------- *)
(** ** The further properties on the sample run *)

Lemma create_rejects_exactly_invalid_witness :
  valid_create (title_body EmptyString) = false /\
  snd (POST_tasks (title_body EmptyString) w_one) = w_one.
Proof.
  split; [reflexivity|].
  apply (proj2 (create_rejects_exactly_invalid (title_body EmptyString) w_one)).
  reflexivity.
Defined.

Lemma create_commit_failure_witness :
  valid_create b_spec = true /\
  db.has_key (next_id (with_drawn 0 w_one)) (tasks (with_drawn 0 w_one)) = true /\
  POST_tasks b_spec (with_drawn 0 w_one)
  = (inl (HTTPException 500 detail_sauvegarde),
     with_drawn (S (drawn (with_drawn 0 w_one))) (with_drawn 0 w_one)).
Proof.
  split; [reflexivity|]. split; [reflexivity|].
  apply (create_commit_failure b_spec (with_drawn 0 w_one)); [reflexivity|].
  right. reflexivity.
Defined.

Lemma created_row_within_bounds_witness :
  POST_tasks b_spec w_start = (inr t_one, w_one) /\
  within_bounds (Task.row t_one) /\
  Task.status t_one = TODO /\ Task.priority t_one = MEDIUM.
Proof.
  split; [reflexivity|].
  apply (created_row_within_bounds b_spec w_start t_one w_one). reflexivity.
Defined.

Lemma health_counts_created_witness :
  POST_tasks b_spec w_start = (inr t_one, w_one) /\
  fst (GET_health w_one) = inr (Health.mk "healthy" "connected" (Some 1%nat)).
Proof.
  split; [reflexivity|].
  apply (health_counts_created b_spec w_start t_one w_one). reflexivity.
Defined.

Lemma get_missing_404_witness :
  outage w_one = None /\
  db.has_key "42" (tasks w_one) = false /\
  GET_tasks_id "42" w_one = (inl (HTTPException 404 (detail_not_found "42")), w_one).
Proof.
  split; [reflexivity|]. split; [reflexivity|].
  apply (get_missing_404 "42" w_one); reflexivity.
Defined.

Lemma delete_missing_404_witness :
  outage w_one = None /\
  db.has_key "42" (tasks w_one) = false /\
  DELETE_tasks_id "42" w_one = (inl (HTTPException 404 (detail_not_found "42")), w_one).
Proof.
  split; [reflexivity|]. split; [reflexivity|].
  apply (delete_missing_404 "42" w_one); reflexivity.
Defined.

Lemma delete_removes_key_witness :
  outage w_bob = None /\
  db.has_key (TaskModel.id r_bob) (tasks w_bob) = true /\
  DELETE_tasks_id (TaskModel.id r_bob) w_bob
  = (inr tt, with_tasks (without_key (TaskModel.id r_bob) (tasks w_bob)) w_bob) /\
  without_key (TaskModel.id r_bob) (tasks w_bob) = [r_free].
Proof.
  split; [reflexivity|]. split; [reflexivity|]. split; [|reflexivity].
  apply (proj1 (delete_removes_key (TaskModel.id r_bob) w_bob eq_refl eq_refl)).
Defined.

Lemma delete_then_get_404_witness :
  DELETE_tasks_id (Task.id t_one) w_one = (inr tt, with_drawn 1 w_start) /\
  GET_tasks_id (Task.id t_one) (with_drawn 1 w_start)
  = (inl (HTTPException 404 (detail_not_found (Task.id t_one))), with_drawn 1 w_start).
Proof.
  split; [reflexivity|].
  apply (proj1 (delete_then_get_404 (Task.id t_one) w_one (with_drawn 1 w_start)
                  eq_refl)).
Defined.

Lemma delete_keeps_other_keys_witness :
  TaskModel.id r_free <> TaskModel.id r_bob /\
  fst (GET_tasks_id (TaskModel.id r_free)
         (snd (DELETE_tasks_id (TaskModel.id r_bob) w_bob)))
  = fst (GET_tasks_id (TaskModel.id r_free) w_bob).
Proof.
  assert (N : TaskModel.id r_free <> TaskModel.id r_bob) by discriminate.
  split; [exact N|].
  apply (delete_keeps_other_keys (TaskModel.id r_bob) (TaskModel.id r_free) w_bob N).
Defined.

Lemma storage_failure_500_witness :
  outage w_down = Some "connection refused" /\
  GET_tasks_id (TaskModel.id r_bob) w_down
  = (inl (SQLAlchemyError "connection refused"), w_down).
Proof.
  split; [reflexivity|].
  apply (proj1 (proj2 (storage_failure_500 w_down "connection refused" eq_refl))).
Defined.

Lemma update_missing_404_witness :
  decimal_int "6" = Some 6%Z /\
  decimal_int "99999999999999999999" = Some 99999999999999999999%Z /\
  TaskUpdate.validate empty_body = inr no_updates /\
  outage w_five = None /\
  (forall r, In r (tasks w_five) -> decimal_eq (TaskModel.id r) 6 = false) /\
  PUT_tasks_id decimal_int "6" empty_body w_five
  = (inl (HTTPException 404 (detail_not_found (Str.of_int 6))), w_five) /\
  exists e,
    PUT_tasks_id decimal_int "99999999999999999999" empty_body w_five = (inl e, w_five) /\
    status_code e = 500%Z /\
    e = OverflowError "Python int too large to convert to SQLite INTEGER".
Proof.
  assert (H : forall r, In r (tasks w_five) -> decimal_eq (TaskModel.id r) 6 = false).
  { intros r [<- | []]. reflexivity. }
  split; [reflexivity|]. split; [reflexivity|]. split; [reflexivity|].
  split; [reflexivity|]. split; [exact H|]. split.
  - apply (proj1 (update_missing_404 decimal_int "6" 6%Z empty_body no_updates
                    decimal_eq w_five eq_refl eq_refl eq_refl eq_refl));
      [lia | exact H].
  - apply (proj2 (update_missing_404 decimal_int "99999999999999999999"
                    99999999999999999999%Z empty_body no_updates
                    decimal_eq w_five eq_refl eq_refl eq_refl eq_refl)).
    right. lia.
Defined.

Lemma health_count_is_list_length_witness :
  outage w_bob = None /\
  forallb stamped (tasks w_bob) = true /\
  exists h xs,
    GET_health w_bob = (inr h, w_bob) /\
    GET_tasks None None None w_bob = (inr xs, w_bob) /\
    Health.tasks_count h = Some (List.length xs).
Proof.
  split; [reflexivity|]. split; [reflexivity|].
  apply (health_count_is_list_length w_bob); reflexivity.
Defined.

Lemma run_keys_unique_witness :
  Run decimal_int w_one [t_one] /\ NoDup (map TaskModel.id (tasks w_one)).
Proof.
  split; [exact Run_w_one|].
  apply (proj1 (run_keys_unique decimal_int w_one [t_one] Run_w_one)).
Defined.

Lemma run_rows_within_bounds_witness :
  Run decimal_int w_one [t_one] /\
  In (Task.row t_one) (tasks w_one) /\
  within_bounds (Task.row t_one).
Proof.
  split; [exact Run_w_one|]. split; [left; reflexivity|].
  apply (run_rows_within_bounds decimal_int w_one [t_one] (Task.row t_one) Run_w_one).
  left; reflexivity.
Defined.

Lemma run_rows_as_created_witness :
  Run decimal_int w_one [t_one] /\
  In (Task.row t_one) (tasks w_one) /\
  exists x, In x [t_one] /\ Task.from_attributes (Task.row t_one) = inr x.
Proof.
  split; [exact Run_w_one|]. split; [left; reflexivity|].
  apply (run_rows_as_created decimal_int w_one [t_one] (Task.row t_one) Run_w_one).
  left; reflexivity.
Defined.

Lemma run_get_stored_witness :
  Run decimal_int w_one [t_one] /\
  outage w_one = None /\
  In (Task.row t_one) (tasks w_one) /\
  exists x,
    GET_tasks_id (TaskModel.id (Task.row t_one)) w_one = (inr x, w_one) /\
    Task.row x = Task.row t_one /\
    Task.id x = TaskModel.id (Task.row t_one) /\ In x [t_one].
Proof.
  split; [exact Run_w_one|]. split; [reflexivity|]. split; [left; reflexivity|].
  apply (run_get_stored decimal_int w_one [t_one] (Task.row t_one) Run_w_one eq_refl).
  left; reflexivity.
Defined.

Lemma run_delete_stored_witness :
  Run decimal_int w_one [t_one] /\
  outage w_one = None /\
  In (Task.row t_one) (tasks w_one) /\
  exists w',
    DELETE_tasks_id (TaskModel.id (Task.row t_one)) w_one = (inr tt, w') /\
    S (List.length (tasks w')) = List.length (tasks w_one) /\
    ~ In (Task.row t_one) (tasks w') /\
    (forall a, In a (tasks w_one) -> a <> Task.row t_one -> In a (tasks w')).
Proof.
  split; [exact Run_w_one|]. split; [reflexivity|]. split; [left; reflexivity|].
  apply (run_delete_stored decimal_int w_one [t_one] (Task.row t_one) Run_w_one eq_refl).
  left; reflexivity.
Defined.

Lemma run_list_then_get_witness :
  Run decimal_int w_one [t_one] /\
  GET_tasks None None None w_one = (inr [t_one], w_one) /\
  In t_one [t_one] /\
  GET_tasks_id (Task.id t_one) w_one = (inr t_one, w_one).
Proof.
  split; [exact Run_w_one|]. split; [reflexivity|]. split; [left; reflexivity|].
  apply (run_list_then_get decimal_int w_one [t_one] None None None [t_one] t_one
           Run_w_one eq_refl).
  left; reflexivity.
Defined.

Lemma cors_origins_trimmed_witness :
  In "https://a.example" (cors_origins (Some " https://a.example , https://b.example")) /\
  Str.contains "," "https://a.example" = false.
Proof.
  assert (H : In "https://a.example"
                 (cors_origins (Some " https://a.example , https://b.example")))
    by (left; reflexivity).
  split; [exact H|].
  apply (proj1 (cors_origins_trimmed
                  (Some " https://a.example , https://b.example")
                  "https://a.example" H)).
Defined.

Lemma cors_origins_join_witness :
  spaceless (cors_origins_str None) = true /\
  join "," (cors_origins None) = cors_origins_str None.
Proof.
  split; [reflexivity|]. apply (cors_origins_join None). reflexivity.
Defined.

Lemma created_id_is_uuid4_text_witness :
  POST_tasks b_spec w_start = (inr t_one, w_one) /\
  uuid4_text (Task.id t_one) /\ sign_leading (Task.id t_one) = false.
Proof.
  split; [reflexivity|].
  apply (created_id_is_uuid4_text b_spec w_start t_one w_one). reflexivity.
Defined.

Lemma run_keys_are_uuid4_text_witness :
  Run decimal_int w_one [t_one] /\
  In (Task.row t_one) (tasks w_one) /\
  uuid4_text (TaskModel.id (Task.row t_one)).
Proof.
  split; [exact Run_w_one|]. split; [left; reflexivity|].
  apply (run_keys_are_uuid4_text decimal_int w_one [t_one] (Task.row t_one) Run_w_one).
  left; reflexivity.
Defined.

Lemma request_rows_witness :
  In (Task.row t_one) (tasks (serve decimal_int (create b_spec) w_start)) /\
  (In (Task.row t_one) (tasks w_start) \/
   exists x, issues (create b_spec) w_start = [x] /\ Task.row t_one = Task.row x).
Proof.
  assert (H : In (Task.row t_one) (tasks (serve decimal_int (create b_spec) w_start)))
    by (left; reflexivity).
  split; [exact H|].
  apply (request_rows decimal_int (create b_spec) w_start (Task.row t_one) H).
Defined.

(* ------------------------------------------------------------------------- *)
(** ** Update and the title *)




